(** * xJoaG/Home: the session store and the admin dashboard

    A shallow embedding of the two pieces of client logic of the
    repository:

    - [AuthContext] (src/context/AuthContext.tsx): the session store with
      [login], [logout], the restoring of a session, [updateUser],
      [isBanned] and the role check [hasPrivilege];
    - [AdminPanelPage] (the dashboard view): the authorization flags, the
      list with its pagination, the handlers of the detail modal, the
      list's own ban check and the e-mail form.

    React state is a record, every [setX] is a record update, and an
    [async] handler is cut at its [await]: the part before it runs at
    once, the part after it is a continuation that runs on whatever the
    state is when the request settles. *)

From Stdlib Require Import ZArith String Ascii List Bool Lia DecimalString.
From stdpp Require Import gmap strings list.

Local Open Scope Z_scope.

(** ** The fragment of JavaScript the two files rely on *)

Module JS.

(** What a property read of the role table can produce. The table maps
    names to numbers, but a bracket read walks the prototype chain, so
    a name such as [toString] finds a function of [Object.prototype];
    [Obj text] is such an object, [text] being the string that
    ToPrimitive (hint number) gives for it: [valueOf] returns the
    object itself, then [toString] is used. *)
Inductive value : Type :=
| Undefined
| Num (n : Z)
| Obj (text : string).

(** [a ?? b] *)
Definition nullish (a b : value) : value :=
  match a with
  | Undefined => b
  | _ => a
  end.

(** The string-keyed properties every object literal inherits from
    [Object.prototype] (the five [__x__] names are Annex B, present in
    every browser), each with its ToPrimitive text. Only the part up to
    the parenthesis is fixed by the language, the blanks after it are
    the engine's; no two of these texts agree up to there. No script is
    taken to have added properties of its own to [Object.prototype]. *)
Definition Object_prototype : gmap string string :=
  list_to_map
    [ ("constructor", "function Object() { [native code] }");
      ("__defineGetter__", "function __defineGetter__() { [native code] }");
      ("__defineSetter__", "function __defineSetter__() { [native code] }");
      ("hasOwnProperty", "function hasOwnProperty() { [native code] }");
      ("__lookupGetter__", "function __lookupGetter__() { [native code] }");
      ("__lookupSetter__", "function __lookupSetter__() { [native code] }");
      ("isPrototypeOf", "function isPrototypeOf() { [native code] }");
      ("propertyIsEnumerable", "function propertyIsEnumerable() { [native code] }");
      ("toString", "function toString() { [native code] }");
      ("valueOf", "function valueOf() { [native code] }");
      ("__proto__", "[object Object]");
      ("toLocaleString", "function toLocaleString() { [native code] }") ].

(** [O[P]] for an object literal [O] with numeric own properties: the
    own property if there is one, else the inherited one, else
    [undefined]. *)
Definition Get (O : gmap string Z) (P : string) : value :=
  match O !! P with
  | Some n => Num n
  | None =>
      match Object_prototype !! P with
      | Some text => Obj text
      | None => Undefined
      end
  end.

(** ToNumber; [None] is NaN. None of the texts above is a numeric
    literal. *)
Definition ToNumber (v : value) : option Z :=
  match v with
  | Num n => Some n
  | Undefined | Obj _ => None
  end.

(** [a < b]: two strings are compared as strings, anything else as
    numbers, and a comparison with NaN is false. *)
Definition lt (a b : value) : bool :=
  match a, b with
  | Obj s, Obj t => String.ltb s t
  | _, _ =>
      match ToNumber a, ToNumber b with
      | Some x, Some y => x <? y
      | _, _ => false
      end
  end.

(** [a >= b]: the negation of [a < b], except that NaN gives false. *)
Definition ge (a b : value) : bool :=
  match a, b with
  | Obj s, Obj t => negb (String.ltb s t)
  | _, _ =>
      match ToNumber a, ToNumber b with
      | Some x, Some y => negb (x <? y)
      | _, _ => false
      end
  end.

(** [!s] for a string: only the empty string is falsy. *)
Definition not_string (s : string) : bool :=
  match s with
  | EmptyString => true
  | String _ _ => false
  end.

(** [!s] for [string | null]. *)
Definition not_nullable (s : option string) : bool :=
  match s with
  | None => true
  | Some s => not_string s
  end.

(** [s || null] for [string | undefined]. *)
Definition or_null (s : option string) : option string :=
  match s with
  | None => None
  | Some s => if not_string s then None else Some s
  end.

(** [s || d] for [string | undefined]. *)
Definition or_string (s : option string) (d : string) : string :=
  match s with
  | None => d
  | Some s => if not_string s then d else s
  end.

(** The value of [a && b] for [a : string | null] and a boolean [b]:
    the falsy [a] itself, or else [b]. *)
Inductive guarded : Type :=
| Operand (a : option string)
| Test (b : bool).

Definition truthy (v : guarded) : bool :=
  match v with
  | Operand _ => false
  | Test b => b
  end.

(** A member of an untyped response body: absent, [null], or a value of
    the type the API documents. *)
Inductive member (A : Type) : Type :=
| Missing
| Null
| Present (a : A).
Arguments Missing {A}.
Arguments Null {A}.
Arguments Present {A} a.

(** The string that [localStorage.setItem] stores for such a member. *)
Definition String_of (m : member string) : string :=
  match m with
  | Missing => "undefined"
  | Null => "null"
  | Present s => s
  end.

End JS.

(** ** Dates *)

Module Date.

(** The time value of a [Date]: milliseconds since the epoch, [None]
    for an invalid date (NaN). *)
Definition t : Type := option Z.

Definition digit (c : ascii) : option Z :=
  let n := Z.of_N (N_of_ascii c) in
  if (48 <=? n) && (n <=? 57) then Some (n - 48) else None.

Fixpoint digits (acc : Z) (cs : list ascii) : option Z :=
  match cs with
  | [] => Some acc
  | c :: cs' =>
      match digit c with
      | Some d => digits (10 * acc + d) cs'
      | None => None
      end
  end.

Definition is_leap (y : Z) : bool :=
  ((y mod 4 =? 0) && negb (y mod 100 =? 0)) || (y mod 400 =? 0).

Definition days_in_month (y m : Z) : Z :=
  if m =? 2 then (if is_leap y then 29 else 28)
  else if (m =? 4) || (m =? 6) || (m =? 9) || (m =? 11) then 30
  else 31.

(** Days from 1970-01-01 to the civil date [y]-[m]-[d]. *)
Definition days_from_civil (y m d : Z) : Z :=
  let y' := if m <=? 2 then y - 1 else y in
  let era := y' / 400 in
  let yoe := y' - era * 400 in
  let mp := if 2 <? m then m - 3 else m + 9 in
  let doy := (153 * mp + 2) / 5 + d - 1 in
  let doe := yoe * 365 + yoe / 4 - yoe / 100 + doy in
  era * 146097 + doe - 719468.

Definition utc (y mo d h mi s ms : Z) : t :=
  if (1 <=? mo) && (mo <=? 12) && (1 <=? d) && (d <=? days_in_month y mo)
     && (h <=? 23) && (mi <=? 59) && (s <=? 59)
  then Some ((((days_from_civil y mo d * 24 + h) * 60 + mi) * 60 + s) * 1000 + ms)
  else None.

Definition field (cs : list ascii) : option Z := digits 0 cs.

(** The date-time form of the interchange format with the UTC
    designator, [YYYY-MM-DDTHH:mm:ssZ], with or without [.sss]. *)
Definition parse_utc (s : string) : t :=
  match list_ascii_of_string s with
  | y1 :: y2 :: y3 :: y4 :: c1 :: m1 :: m2 :: c2 :: d1 :: d2 :: cT
      :: h1 :: h2 :: c3 :: i1 :: i2 :: c4 :: s1 :: s2 :: rest =>
      if Ascii.eqb c1 "-" && Ascii.eqb c2 "-" && Ascii.eqb cT "T"
         && Ascii.eqb c3 ":" && Ascii.eqb c4 ":"
      then
        match field [y1; y2; y3; y4], field [m1; m2], field [d1; d2],
              field [h1; h2], field [i1; i2], field [s1; s2] with
        | Some y, Some mo, Some d, Some h, Some mi, Some sec =>
            match rest with
            | [cZ] =>
                if Ascii.eqb cZ "Z" then utc y mo d h mi sec 0 else None
            | [dot; f1; f2; f3; cZ] =>
                if Ascii.eqb dot "." && Ascii.eqb cZ "Z" then
                  match field [f1; f2; f3] with
                  | Some ms => utc y mo d h mi sec ms
                  | None => None
                  end
                else None
            | _ => None
            end
        | _, _, _, _, _, _ => None
        end
      else None
  | _ => None
  end.

(** [Date.parse]. The language fixes the result for the interchange
    format; every other string is left to the engine, here the
    parameter [host]. The empty string is not a date for any engine. *)
Definition parse (host : string -> t) (s : string) : t :=
  match s with
  | EmptyString => None
  | _ =>
      match parse_utc s with
      | Some ms => Some ms
      | None => host s
      end
  end.

(** [a > b] on two dates: their time values are compared, NaN compares
    false. *)
Definition gt (a b : t) : bool :=
  match a, b with
  | Some x, Some y => y <? x
  | _, _ => false
  end.

End Date.

(** ** Requests and handlers cut at their [await] *)

Module Async.

(** The rejection of an axios call; [message] is
    [error.response?.data?.message]. *)
Record AxiosError : Type := { message : option string }.

(** How a request settles. *)
Inductive Response (A : Type) : Type :=
| Resolved (data : A)
| Rejected (error : AxiosError).
Arguments Resolved {A} data.
Arguments Rejected {A} error.

(** How the promise of an [async] function settles. *)
Inductive Settled : Type :=
| Fulfilled
| Thrown (error : AxiosError).

(** A handler run up to its first [await]. [Done s]: it returned
    without awaiting anything, leaving the state [s]. [Await s rq k]: it
    left the state [s], issued the request [rq] and suspended; when the
    request settles, [k now response current] runs the rest on the
    state [current] of that moment, [now] being the clock then. What the
    handler read before the [await] stays in [k] as it was read. *)
Inductive Task (St Rq Rs : Type) : Type :=
| Done (s : St)
| Await (s : St) (rq : Rq) (k : Z -> Response Rs -> St -> St * Settled).
Arguments Done {St Rq Rs} s.
Arguments Await {St Rq Rs} s rq k.

Definition state_of {St Rq Rs} (t : Task St Rq Rs) : St :=
  match t with
  | Done s => s
  | Await s _ _ => s
  end.

(** The network calls issued. *)
Definition requests_of {St Rq Rs} (t : Task St Rq Rs) : list Rq :=
  match t with
  | Done _ => []
  | Await _ rq _ => [rq]
  end.

(** The rest of the handler once its request has settled, on the state
    [current] of that moment. *)
Definition resume {St Rq Rs} (t : Task St Rq Rs) (now : Z)
    (response : Response Rs) (current : St) : St * Settled :=
  match t with
  | Done _ => (current, Fulfilled)
  | Await _ _ k => k now response current
  end.

(** The whole handler, when nothing else touches the state while the
    request is in flight. *)
Definition run {St Rq Rs} (t : Task St Rq Rs) (now : Z)
    (response : Response Rs) : St * Settled :=
  resume t now response (state_of t).

End Async.

(** ** src/context/AuthContext.tsx

    The offline variant of this file, which logs in a mock identity, has
    the same [GROUP_HIERARCHY], [isUserObjectBanned], [isBanned] and
    [hasPrivilege]. *)

Module AuthContext.
Import Async.

Record User : Type := {
  id : Z;
  name : string;
  email : string;
  email_verified_at : option string;
  bio : option string;
  nationality : option string;
  profile_picture_url : option string;
  is_profile_public : bool;
  username : option string;
  group : string;
  banned_until : option string;
  ban_reason : option string
}.

Definition GROUP_HIERARCHY : gmap string Z :=
  list_to_map
    [ ("Basic Plan", 0);
      ("Premium Plan", 1);
      ("Junior Support", 2);
      ("Support", 3);
      ("Senior Support", 4);
      ("Admin", 5);
      ("Owner", 6) ].

(** The five [useState] cells of [AuthProvider], and the browser's
    [localStorage]. *)
Record Store : Type := {
  user : option User;
  isLoading : bool;
  isVerifying : bool;
  showVerificationPopup : bool;
  showBanPopup : bool;
  localStorage : gmap string string
}.

Definition initial (storage : gmap string string) : Store :=
  {| user := None; isLoading := false; isVerifying := true;
     showVerificationPopup := false; showBanPopup := false;
     localStorage := storage |}.

Definition setUser (v : option User) (s : Store) : Store :=
  {| user := v; isLoading := isLoading s; isVerifying := isVerifying s;
     showVerificationPopup := showVerificationPopup s;
     showBanPopup := showBanPopup s; localStorage := localStorage s |}.

Definition setIsLoading (v : bool) (s : Store) : Store :=
  {| user := user s; isLoading := v; isVerifying := isVerifying s;
     showVerificationPopup := showVerificationPopup s;
     showBanPopup := showBanPopup s; localStorage := localStorage s |}.

Definition setShowVerificationPopup (v : bool) (s : Store) : Store :=
  {| user := user s; isLoading := isLoading s; isVerifying := isVerifying s;
     showVerificationPopup := v;
     showBanPopup := showBanPopup s; localStorage := localStorage s |}.

Definition setShowBanPopup (v : bool) (s : Store) : Store :=
  {| user := user s; isLoading := isLoading s; isVerifying := isVerifying s;
     showVerificationPopup := showVerificationPopup s;
     showBanPopup := v; localStorage := localStorage s |}.

(** [localStorage.setItem(key, value)] *)
Definition setItem (key value : string) (s : Store) : Store :=
  {| user := user s; isLoading := isLoading s; isVerifying := isVerifying s;
     showVerificationPopup := showVerificationPopup s;
     showBanPopup := showBanPopup s;
     localStorage := <[key := value]> (localStorage s) |}.

(** [localStorage.removeItem(key)] *)
Definition removeItem (key : string) (s : Store) : Store :=
  {| user := user s; isLoading := isLoading s; isVerifying := isVerifying s;
     showVerificationPopup := showVerificationPopup s;
     showBanPopup := showBanPopup s;
     localStorage := delete key (localStorage s) |}.

Section Clock.
(** The engine's parsing of date strings outside the interchange
    format. *)
Variable host : string -> Date.t.

(** [now] is what [new Date()] reads. *)
Definition isUserObjectBanned (now : Z) (userObj : option User) : bool :=
  match userObj with
  | None => false
  | Some userObj =>
      if JS.not_nullable (banned_until userObj) then false
      else
        match banned_until userObj with
        | None => false
        | Some until =>
            let bannedUntilDate := Date.parse host until in
            Date.gt bannedUntilDate (Some now)
        end
  end.

(** The body of [POST /login] as it arrives. The API promises an object
    with a token and the identity, but the handler takes the body
    untyped: [no_data] is a body that is [null] or [undefined], and
    either member of an object may be absent or [null]. *)
Inductive LoginData : Type :=
| no_data
| data_of (access_token : JS.member string) (user : JS.member User).

(** A [TypeError], as far as a caller reads it: it has no [response]. *)
Definition TypeError : AxiosError := {| message := None |}.

(** The credentials are passed on as they come. *)
Variable Credentials : Type.

Inductive Request : Type :=
| POST_login (credentials : Credentials).

Definition login (credentials : Credentials) (s : Store)
    : Task Store Request LoginData :=
  Await (setIsLoading true s) (POST_login credentials)
    (fun now response s =>
       match response with
       | Resolved no_data =>
           (* the destructuring of [data] throws *)
           (setIsLoading false s, Thrown TypeError)
       | Resolved (data_of access_token userData) =>
           let s := setItem "auth_token" (JS.String_of access_token) s in
           match userData with
           | JS.Present userData =>
               let s := setUser (Some userData) s in
               let s :=
                 if JS.not_nullable (email_verified_at userData)
                 then setShowVerificationPopup true s
                 else s in
               let s :=
                 if isUserObjectBanned now (Some userData)
                 then setShowBanPopup true s
                 else setShowBanPopup false s in
               (setIsLoading false s, Fulfilled)
           | JS.Missing | JS.Null =>
               (* [setUser(userData)], then the read of
                  [userData.email_verified_at] throws *)
               let s := setUser None s in
               (setIsLoading false s, Thrown TypeError)
           end
       | Rejected error =>
           (setIsLoading false s, Thrown error)
       end).

Definition logout (s : Store) : Store :=
  let s := removeItem "auth_token" s in
  let s := setUser None s in
  let s := setShowVerificationPopup false s in
  setShowBanPopup false s.

Definition isBanned (now : Z) (s : Store) : bool :=
  isUserObjectBanned now (user s).

End Clock.

(** [requiredGroups: string | string[]] *)
Inductive RequiredGroups : Type :=
| One (group : string)
| Several (groups : list string).

(** [GROUP_HIERARCHY[group] ?? -1] *)
Definition privilege (group : string) : JS.value :=
  JS.nullish (JS.Get GROUP_HIERARCHY group) (JS.Num (-1)).

(** The [for ... of] loop of [hasPrivilege], with its early return. *)
Fixpoint for_of (userPrivilege : JS.value) (requiredGroups : list string)
    : bool :=
  match requiredGroups with
  | [] => false
  | group :: rest =>
      let requiredPrivilege := privilege group in
      if JS.ge userPrivilege requiredPrivilege then true
      else for_of userPrivilege rest
  end.

Definition hasPrivilege (s : Store) (requiredGroups : RequiredGroups)
    : bool :=
  match user s with
  | None => false
  | Some user =>
      let userPrivilege := privilege (group user) in
      match requiredGroups with
      | Several groups => for_of userPrivilege groups
      | One group =>
          let requiredPrivilege := privilege group in
          JS.ge userPrivilege requiredPrivilege
      end
  end.

(** The mock identity of the offline variant of this file, with a fixed
    verification date. *)
Definition MOCK_USER : User :=
  {| id := 1;
     name := "John Doe";
     email := "john.doe@example.com";
     email_verified_at := Some "2024-01-01T00:00:00.000Z";
     bio := Some "Passionate C++ developer with 5 years of experience. Love solving complex problems and learning new technologies.";
     nationality := Some "United States";
     profile_picture_url := Some "https://images.pexels.com/photos/1043471/pexels-photo-1043471.jpeg?auto=compress&cs=tinysrgb&w=400";
     is_profile_public := true;
     username := Some "johndoe_cpp";
     group := "Premium Plan";
     banned_until := None;
     ban_reason := None |}.

(** [{ ...u, group: g }] *)
Definition regroup (g : string) (u : User) : User :=
  {| id := id u; name := name u; email := email u;
     email_verified_at := email_verified_at u; bio := bio u;
     nationality := nationality u;
     profile_picture_url := profile_picture_url u;
     is_profile_public := is_profile_public u; username := username u;
     group := g; banned_until := banned_until u;
     ban_reason := ban_reason u |}.

(** [{ ...u, banned_until: until, ban_reason: reason }] *)
Definition ban (until reason : string) (u : User) : User :=
  {| id := id u; name := name u; email := email u;
     email_verified_at := email_verified_at u; bio := bio u;
     nationality := nationality u;
     profile_picture_url := profile_picture_url u;
     is_profile_public := is_profile_public u; username := username u;
     group := group u; banned_until := Some until;
     ban_reason := Some reason |}.

(** A store that holds [u], with its token in the storage. *)
Definition holding (u : User) : Store :=
  setUser (Some u) (initial {[ "auth_token" := "token-of-the-session" ]}).

(** *** The rest of the provider *)

(** [Partial<User>]: each member is absent ([None]) or present with a
    value. A member present with the value [undefined] is not
    represented. *)
Module Partial.
Record t : Type := {
  id : option Z;
  name : option string;
  email : option string;
  email_verified_at : option (option string);
  bio : option (option string);
  nationality : option (option string);
  profile_picture_url : option (option string);
  is_profile_public : option bool;
  username : option (option string);
  group : option string;
  banned_until : option (option string);
  ban_reason : option (option string)
}.

(** The object with no member. *)
Definition empty : t :=
  {| id := None; name := None; email := None; email_verified_at := None;
     bio := None; nationality := None; profile_picture_url := None;
     is_profile_public := None; username := None; group := None;
     banned_until := None; ban_reason := None |}.

(** One member of [{ ...a, ...b }]. *)
Definition later {A : Type} (a b : option A) : option A :=
  match b with
  | Some v => Some v
  | None => a
  end.

(** [{ ...a, ...b }] for two partial objects. *)
Definition merge (a b : t) : t :=
  {| id := later (id a) (id b);
     name := later (name a) (name b);
     email := later (email a) (email b);
     email_verified_at := later (email_verified_at a) (email_verified_at b);
     bio := later (bio a) (bio b);
     nationality := later (nationality a) (nationality b);
     profile_picture_url :=
       later (profile_picture_url a) (profile_picture_url b);
     is_profile_public := later (is_profile_public a) (is_profile_public b);
     username := later (username a) (username b);
     group := later (group a) (group b);
     banned_until := later (banned_until a) (banned_until b);
     ban_reason := later (ban_reason a) (ban_reason b) |}.
End Partial.

(** [{ ...prevUser, ...newUserData }] *)
Definition spread (prevUser : User) (newUserData : Partial.t) : User :=
  {| id := default (id prevUser) (Partial.id newUserData);
     name := default (name prevUser) (Partial.name newUserData);
     email := default (email prevUser) (Partial.email newUserData);
     email_verified_at :=
       default (email_verified_at prevUser)
         (Partial.email_verified_at newUserData);
     bio := default (bio prevUser) (Partial.bio newUserData);
     nationality :=
       default (nationality prevUser) (Partial.nationality newUserData);
     profile_picture_url :=
       default (profile_picture_url prevUser)
         (Partial.profile_picture_url newUserData);
     is_profile_public :=
       default (is_profile_public prevUser)
         (Partial.is_profile_public newUserData);
     username := default (username prevUser) (Partial.username newUserData);
     group := default (group prevUser) (Partial.group newUserData);
     banned_until :=
       default (banned_until prevUser) (Partial.banned_until newUserData);
     ban_reason :=
       default (ban_reason prevUser) (Partial.ban_reason newUserData) |}.

Definition setIsVerifying (v : bool) (s : Store) : Store :=
  {| user := user s; isLoading := isLoading s; isVerifying := v;
     showVerificationPopup := showVerificationPopup s;
     showBanPopup := showBanPopup s; localStorage := localStorage s |}.

(** The request interceptor of [apiClient]: the [Authorization] header
    it puts on a request, if any. *)
Definition Authorization (s : Store) : option string :=
  match localStorage s !! "auth_token" with
  | Some token =>
      if JS.not_string token then None else Some ("Bearer " +:+ token)
  | None => None
  end.

Section Provider.
Variable host : string -> Date.t.

(** The data of a registration is passed on as it comes. *)
Variable Registration : Type.

Inductive SessionRequest : Type :=
| GET_user
| POST_register (data : Registration)
| POST_email_verification_notification.

(** [verifyAuth], run by the effect of the first render. *)
Definition verifyAuth (s : Store) : Task Store SessionRequest User :=
  match localStorage s !! "auth_token" with
  | Some (String c token) =>
      Await s GET_user
        (fun now response s =>
           match response with
           | Resolved data =>
               let s := setUser (Some data) s in
               let s :=
                 if JS.not_nullable (email_verified_at data)
                 then setShowVerificationPopup true s
                 else s in
               let s :=
                 if isUserObjectBanned host now (Some data)
                 then setShowBanPopup true s
                 else s in
               (setIsVerifying false s, Fulfilled)
           | Rejected error =>
               let s := removeItem "auth_token" s in
               let s := setUser None s in
               let s := setShowBanPopup false s in
               (setIsVerifying false s, Fulfilled)
           end)
  | Some EmptyString | None => Done (setIsVerifying false s)
  end.

(** The effect on [user] and [isVerifying]. *)
Definition banEffect (now : Z) (s : Store) : Store :=
  match user s with
  | Some held =>
      if negb (isVerifying s) then
        if isUserObjectBanned host now (Some held)
        then setShowBanPopup true s
        else setShowBanPopup false s
      else s
  | None => s
  end.

Definition register (data : Registration) (s : Store)
    : Task Store SessionRequest unit :=
  Await (setIsLoading true s) (POST_register data)
    (fun _ response s =>
       match response with
       | Resolved _ => (setIsLoading false s, Fulfilled)
       | Rejected error => (setIsLoading false s, Thrown error)
       end).

Definition resendVerificationEmail (s : Store)
    : Task Store SessionRequest unit :=
  match user s with
  | None => Done s
  | Some _ =>
      Await s POST_email_verification_notification
        (fun _ response s =>
           match response with
           | Resolved _ => (s, Fulfilled)
           | Rejected error => (s, Thrown error)
           end)
  end.

(** [now] is the clock when the updater runs. *)
Definition updateUser (now : Z) (newUserData : Partial.t) (s : Store)
    : Store :=
  match user s with
  | None => setUser None s
  | Some prevUser =>
      let updatedUser := spread prevUser newUserData in
      let s :=
        if isUserObjectBanned host now (Some updatedUser)
        then setShowBanPopup true s
        else setShowBanPopup false s in
      setUser (Some updatedUser) s
  end.

End Provider.

End AuthContext.

(** ** The dashboard view *)

Module AdminPanelPage.
Import Async.

Record UserProfileData : Type := {
  id : Z;
  username : string;
  name : option string;
  email : option string;
  bio : option string;
  nationality : option string;
  profile_picture_url : option string;
  is_profile_public : bool;
  group : string;
  banned_until : option string;
  ban_reason : option string;
  is_private : option bool;
  message : option string;
  created_at : option string
}.

Record PaginationMeta : Type := {
  current_page : Z;
  last_page : Z;
  per_page : Z;
  total : Z
}.

Inductive MessageType : Type := success | error.

Record ActionMessage : Type := {
  type : MessageType;
  text : string
}.

Inductive ModalTab : Type := info | moderation | permissions.

(** The [useState] cells of the user list and of the detail modal. The
    cells of the statistics card and of the e-mail tab are neither read
    nor written by the handlers below. *)
Record Page : Type := {
  users : list UserProfileData;
  pagination : PaginationMeta;
  listLoading : bool;
  listError : option string;
  searchQuery : string;
  selectedUser : option UserProfileData;
  modalOpen : bool;
  modalActiveTab : ModalTab;
  banReason : string;
  bannedUntil : string;
  newGroup : string;
  adminActionLoading : bool;
  adminActionMessage : option ActionMessage
}.

Definition initial : Page :=
  {| users := [];
     pagination :=
       {| current_page := 1; last_page := 1; per_page := 15; total := 0 |};
     listLoading := false; listError := None; searchQuery := "";
     selectedUser := None; modalOpen := false; modalActiveTab := info;
     banReason := ""; bannedUntil := ""; newGroup := "";
     adminActionLoading := false; adminActionMessage := None |}.

Definition setUsers (v : list UserProfileData) (s : Page) : Page :=
  {| users := v; pagination := pagination s; listLoading := listLoading s;
     listError := listError s; searchQuery := searchQuery s;
     selectedUser := selectedUser s; modalOpen := modalOpen s;
     modalActiveTab := modalActiveTab s; banReason := banReason s;
     bannedUntil := bannedUntil s; newGroup := newGroup s;
     adminActionLoading := adminActionLoading s;
     adminActionMessage := adminActionMessage s |}.

Definition setPagination (v : PaginationMeta) (s : Page) : Page :=
  {| users := users s; pagination := v; listLoading := listLoading s;
     listError := listError s; searchQuery := searchQuery s;
     selectedUser := selectedUser s; modalOpen := modalOpen s;
     modalActiveTab := modalActiveTab s; banReason := banReason s;
     bannedUntil := bannedUntil s; newGroup := newGroup s;
     adminActionLoading := adminActionLoading s;
     adminActionMessage := adminActionMessage s |}.

Definition setListLoading (v : bool) (s : Page) : Page :=
  {| users := users s; pagination := pagination s; listLoading := v;
     listError := listError s; searchQuery := searchQuery s;
     selectedUser := selectedUser s; modalOpen := modalOpen s;
     modalActiveTab := modalActiveTab s; banReason := banReason s;
     bannedUntil := bannedUntil s; newGroup := newGroup s;
     adminActionLoading := adminActionLoading s;
     adminActionMessage := adminActionMessage s |}.

Definition setListError (v : option string) (s : Page) : Page :=
  {| users := users s; pagination := pagination s;
     listLoading := listLoading s;
     listError := v; searchQuery := searchQuery s;
     selectedUser := selectedUser s; modalOpen := modalOpen s;
     modalActiveTab := modalActiveTab s; banReason := banReason s;
     bannedUntil := bannedUntil s; newGroup := newGroup s;
     adminActionLoading := adminActionLoading s;
     adminActionMessage := adminActionMessage s |}.

(** [setSelectedUser(prev => f(prev))] *)
Definition setSelectedUser
    (f : option UserProfileData -> option UserProfileData) (s : Page)
    : Page :=
  {| users := users s; pagination := pagination s;
     listLoading := listLoading s;
     listError := listError s; searchQuery := searchQuery s;
     selectedUser := f (selectedUser s); modalOpen := modalOpen s;
     modalActiveTab := modalActiveTab s; banReason := banReason s;
     bannedUntil := bannedUntil s; newGroup := newGroup s;
     adminActionLoading := adminActionLoading s;
     adminActionMessage := adminActionMessage s |}.

Definition setAdminActionLoading (v : bool) (s : Page) : Page :=
  {| users := users s; pagination := pagination s;
     listLoading := listLoading s;
     listError := listError s; searchQuery := searchQuery s;
     selectedUser := selectedUser s; modalOpen := modalOpen s;
     modalActiveTab := modalActiveTab s; banReason := banReason s;
     bannedUntil := bannedUntil s; newGroup := newGroup s;
     adminActionLoading := v;
     adminActionMessage := adminActionMessage s |}.

Definition setAdminActionMessage (v : option ActionMessage) (s : Page)
    : Page :=
  {| users := users s; pagination := pagination s;
     listLoading := listLoading s;
     listError := listError s; searchQuery := searchQuery s;
     selectedUser := selectedUser s; modalOpen := modalOpen s;
     modalActiveTab := modalActiveTab s; banReason := banReason s;
     bannedUntil := bannedUntil s; newGroup := newGroup s;
     adminActionLoading := adminActionLoading s;
     adminActionMessage := v |}.

(** The body sent with a ban: [banned_until] is an optional member. *)
Record BanData : Type := {
  data_banned_until : option string;
  data_ban_reason : string
}.

Inductive Request : Type :=
| GET_users (page : Z) (search : string)
| POST_ban (id : Z) (data : BanData).

(** The body of [GET /users]. *)
Record UsersBody : Type := {
  data : list UserProfileData;
  meta : PaginationMeta
}.

Definition fetchUsers (page : Z) (search : string) (s : Page)
    : Task Page Request UsersBody :=
  let s := setListLoading true s in
  let s := setListError None s in
  Await s (GET_users page search)
    (fun _ response s =>
       match response with
       | Resolved body =>
           let s := setUsers (data body) s in
           let s := setPagination (meta body) s in
           (setListLoading false s, Fulfilled)
       | Rejected err =>
           let s :=
             setListError
               (Some (JS.or_string (Async.message err)
                        "Failed to load users. Check your permissions."))
               s in
           (setListLoading false s, Fulfilled)
       end).

Definition handlePageChange (page : Z) (s : Page)
    : Task Page Request UsersBody :=
  if (1 <=? page) && (page <=? last_page (pagination s))
  then fetchUsers page (searchQuery s) s
  else Done s.

(** [{ ...prev, banned_until: until, ban_reason: reason }] *)
Definition spread_ban (prev : UserProfileData)
    (until reason : option string) : UserProfileData :=
  {| id := id prev; username := username prev; name := name prev;
     email := email prev; bio := bio prev;
     nationality := nationality prev;
     profile_picture_url := profile_picture_url prev;
     is_profile_public := is_profile_public prev; group := group prev;
     banned_until := until; ban_reason := reason;
     is_private := is_private prev; message := message prev;
     created_at := created_at prev |}.

Definition handleBanUser (permanent : bool) (s : Page)
    : Task Page Request unit :=
  match selectedUser s with
  | None => Done s
  | Some selected =>
      if id selected =? 0 then Done s
      else if (negb permanent && JS.not_string (bannedUntil s))
              || JS.not_string (banReason s)
      then
        Done (setAdminActionMessage
                (Some {| type := error;
                         text := "Please fill all ban fields." |}) s)
      else
        let reason := banReason s in
        let payload :=
          {| data_ban_reason := reason;
             data_banned_until :=
               if negb permanent then Some (bannedUntil s) else None |} in
        let s := setAdminActionLoading true s in
        let s := setAdminActionMessage None s in
        Await s (POST_ban (id selected) payload)
          (fun _ response s =>
             match response with
             | Resolved _ =>
                 let s :=
                   setAdminActionMessage
                     (Some {| type := success;
                              text := "User " +:+ username selected
                                      +:+ " banned successfully!" |}) s in
                 let s :=
                   setSelectedUser
                     (fun prev =>
                        match prev with
                        | Some prev =>
                            Some (spread_ban prev
                                    (JS.or_null (data_banned_until payload))
                                    (Some reason))
                        | None => None
                        end) s in
                 (setAdminActionLoading false s, Fulfilled)
             | Rejected err =>
                 let errorMessage :=
                   JS.or_string (Async.message err)
                     "Failed to ban user. Check privileges or user ID." in
                 let s :=
                   setAdminActionMessage
                     (Some {| type := error; text := errorMessage |}) s in
                 (setAdminActionLoading false s, Fulfilled)
             end)
  end.

Section Clock.
Variable host : string -> Date.t.

(** [user.banned_until && new Date(user.banned_until) > new Date()] *)
Definition isUserBanned (now : Z) (user : UserProfileData) : JS.guarded :=
  match banned_until user with
  | None => JS.Operand None
  | Some until =>
      if JS.not_string until then JS.Operand (Some until)
      else JS.Test (Date.gt (Date.parse host until) (Some now))
  end.
End Clock.

(** *** The rest of the page *)

Definition ALL_GROUPS : list string :=
  ["Basic Plan"; "Premium Plan"; "Junior Support"; "Support";
   "Senior Support"; "Admin"; "Owner"].

(** The authorization checks, read from the session store [auth]. *)
Definition canAccessPanel (auth : AuthContext.Store) : bool :=
  AuthContext.hasPrivilege auth
    (AuthContext.Several
       ["Junior Support"; "Support"; "Senior Support"; "Admin"; "Owner"]).

Definition canBan (auth : AuthContext.Store) : bool :=
  AuthContext.hasPrivilege auth
    (AuthContext.Several ["Admin"; "Owner"; "Senior Support"]).

Definition canChangeGroup (auth : AuthContext.Store) : bool :=
  AuthContext.hasPrivilege auth (AuthContext.Several ["Admin"; "Owner"]).

Definition canSeeFullInfo (auth : AuthContext.Store) : bool :=
  AuthContext.hasPrivilege auth
    (AuthContext.Several ["Admin"; "Owner"; "Senior Support"; "Support"]).

Definition canSendEmail (auth : AuthContext.Store) : bool :=
  AuthContext.hasPrivilege auth (AuthContext.Several ["Admin"; "Owner"]).

(** The held identity's group is a tier ranked [m] or above. *)
Definition ranked_from (m : Z) (auth : AuthContext.Store) : Prop :=
  exists held n,
    AuthContext.user auth = Some held /\
    AuthContext.GROUP_HIERARCHY !! AuthContext.group held = Some n /\
    m <= n.

Definition setModalOpen (v : bool) (s : Page) : Page :=
  {| users := users s; pagination := pagination s;
     listLoading := listLoading s;
     listError := listError s; searchQuery := searchQuery s;
     selectedUser := selectedUser s; modalOpen := v;
     modalActiveTab := modalActiveTab s; banReason := banReason s;
     bannedUntil := bannedUntil s; newGroup := newGroup s;
     adminActionLoading := adminActionLoading s;
     adminActionMessage := adminActionMessage s |}.

Definition setModalActiveTab (v : ModalTab) (s : Page) : Page :=
  {| users := users s; pagination := pagination s;
     listLoading := listLoading s;
     listError := listError s; searchQuery := searchQuery s;
     selectedUser := selectedUser s; modalOpen := modalOpen s;
     modalActiveTab := v; banReason := banReason s;
     bannedUntil := bannedUntil s; newGroup := newGroup s;
     adminActionLoading := adminActionLoading s;
     adminActionMessage := adminActionMessage s |}.

Definition setBanReason (v : string) (s : Page) : Page :=
  {| users := users s; pagination := pagination s;
     listLoading := listLoading s;
     listError := listError s; searchQuery := searchQuery s;
     selectedUser := selectedUser s; modalOpen := modalOpen s;
     modalActiveTab := modalActiveTab s; banReason := v;
     bannedUntil := bannedUntil s; newGroup := newGroup s;
     adminActionLoading := adminActionLoading s;
     adminActionMessage := adminActionMessage s |}.

Definition setBannedUntil (v : string) (s : Page) : Page :=
  {| users := users s; pagination := pagination s;
     listLoading := listLoading s;
     listError := listError s; searchQuery := searchQuery s;
     selectedUser := selectedUser s; modalOpen := modalOpen s;
     modalActiveTab := modalActiveTab s; banReason := banReason s;
     bannedUntil := v; newGroup := newGroup s;
     adminActionLoading := adminActionLoading s;
     adminActionMessage := adminActionMessage s |}.

Definition setNewGroup (v : string) (s : Page) : Page :=
  {| users := users s; pagination := pagination s;
     listLoading := listLoading s;
     listError := listError s; searchQuery := searchQuery s;
     selectedUser := selectedUser s; modalOpen := modalOpen s;
     modalActiveTab := modalActiveTab s; banReason := banReason s;
     bannedUntil := bannedUntil s; newGroup := v;
     adminActionLoading := adminActionLoading s;
     adminActionMessage := adminActionMessage s |}.

(** The statistics card. *)
Record AdminStats : Type := {
  total_users : Z;
  active_today : Z;
  active_bans : Z
}.

Record StatsCard : Type := {
  adminStats : AdminStats;
  statsLoading : bool;
  statsError : option string
}.

Inductive StatsRequest : Type :=
| GET_admin_stats.

Definition fetchStats (c : StatsCard)
    : Task StatsCard StatsRequest AdminStats :=
  let c :=
    {| adminStats := adminStats c; statsLoading := true;
       statsError := None |} in
  Await c GET_admin_stats
    (fun _ response c =>
       match response with
       | Resolved body =>
           ({| adminStats := body; statsLoading := false;
               statsError := statsError c |}, Fulfilled)
       | Rejected err =>
           ({| adminStats := adminStats c; statsLoading := false;
               statsError :=
                 Some (JS.or_string (Async.message err)
                         "Failed to load stats.") |}, Fulfilled)
       end).

Definition handleSearchSubmit (s : Page) : Task Page Request UsersBody :=
  fetchUsers 1 (searchQuery s) s.

(** [closeModal]: the reset of the modal, then the two refreshes it
    starts. *)
Definition closeModal (s : Page) (c : StatsCard)
    : Task Page Request UsersBody * Task StatsCard StatsRequest AdminStats :=
  let page := current_page (pagination s) in
  let search := searchQuery s in
  let s := setModalOpen false s in
  let s := setSelectedUser (fun _ => None) s in
  let s := setAdminActionMessage None s in
  let s := setBanReason "" s in
  let s := setBannedUntil "" s in
  let s := setNewGroup "" s in
  let s := setModalActiveTab info s in
  (fetchUsers page search s, fetchStats c).

(** The four buttons of the pagination controls. *)
Inductive PagerButton : Type :=
| FirstPage
| PreviousPage
| NextPage
| LastPage.

(** The page a button asks for. *)
Definition pager_page (b : PagerButton) (s : Page) : Z :=
  match b with
  | FirstPage => 1
  | PreviousPage => current_page (pagination s) - 1
  | NextPage => current_page (pagination s) + 1
  | LastPage => last_page (pagination s)
  end.

Definition pager_onClick (b : PagerButton) (s : Page)
    : Task Page Request UsersBody :=
  handlePageChange (pager_page b s) s.

Definition pager_disabled (b : PagerButton) (s : Page) : bool :=
  match b with
  | FirstPage | PreviousPage =>
      (current_page (pagination s) =? 1) || listLoading s
  | NextPage | LastPage =>
      (current_page (pagination s) =? last_page (pagination s))
      || listLoading s
  end.

(** The ban button of the moderation tab: its handler and its label. *)
Definition banButton_onClick (s : Page) : Task Page Request unit :=
  handleBanUser false s.

Definition banButton_label (s : Page) : string :=
  if JS.not_string (bannedUntil s) then "Permanent Ban" else "Temporary Ban".

Inductive ModalRequest : Type :=
| POST_unban (id : Z)
| PUT_group (id : Z) (group : string).

Definition handleUnbanUser (s : Page) : Task Page ModalRequest unit :=
  match selectedUser s with
  | None => Done s
  | Some selected =>
      if id selected =? 0 then Done s
      else
        let s := setAdminActionLoading true s in
        let s := setAdminActionMessage None s in
        Await s (POST_unban (id selected))
          (fun _ response s =>
             match response with
             | Resolved _ =>
                 let s :=
                   setAdminActionMessage
                     (Some {| type := success;
                              text := "User " +:+ username selected
                                      +:+ " unbanned successfully!" |}) s in
                 let s :=
                   setSelectedUser
                     (fun prev =>
                        match prev with
                        | Some prev => Some (spread_ban prev None None)
                        | None => None
                        end) s in
                 (setAdminActionLoading false s, Fulfilled)
             | Rejected err =>
                 let errorMessage :=
                   JS.or_string (Async.message err)
                     "Failed to unban user. Check privileges or user ID." in
                 let s :=
                   setAdminActionMessage
                     (Some {| type := error; text := errorMessage |}) s in
                 (setAdminActionLoading false s, Fulfilled)
             end)
  end.

(** [{ ...prev, group: g }] *)
Definition spread_group (prev : UserProfileData) (g : string)
    : UserProfileData :=
  {| id := id prev; username := username prev; name := name prev;
     email := email prev; bio := bio prev;
     nationality := nationality prev;
     profile_picture_url := profile_picture_url prev;
     is_profile_public := is_profile_public prev; group := g;
     banned_until := banned_until prev; ban_reason := ban_reason prev;
     is_private := is_private prev; message := message prev;
     created_at := created_at prev |}.

(** [!selectedUser?.id] *)
Definition no_selected_id (s : Page) : bool :=
  match selectedUser s with
  | None => true
  | Some selected => id selected =? 0
  end.

Definition handleUpdateGroup (s : Page) : Task Page ModalRequest unit :=
  if no_selected_id s || JS.not_string (newGroup s) then
    Done (setAdminActionMessage
            (Some {| type := error; text := "Please select a new group." |})
            s)
  else
    match selectedUser s with
    | None => Done s
    | Some selected =>
        let chosen := newGroup s in
        let s := setAdminActionLoading true s in
        let s := setAdminActionMessage None s in
        Await s (PUT_group (id selected) chosen)
          (fun _ response s =>
             match response with
             | Resolved _ =>
                 let s :=
                   setAdminActionMessage
                     (Some {| type := success;
                              text := "User " +:+ username selected
                                      +:+ " group updated to " +:+ chosen
                                      +:+ "!" |}) s in
                 let s :=
                   setSelectedUser
                     (fun prev =>
                        match prev with
                        | Some prev => Some (spread_group prev chosen)
                        | None => None
                        end) s in
                 (setAdminActionLoading false s, Fulfilled)
             | Rejected err =>
                 let errorMessage :=
                   JS.or_string (Async.message err)
                     "Failed to update group. Check privileges or user ID." in
                 let s :=
                   setAdminActionMessage
                     (Some {| type := error; text := errorMessage |}) s in
                 (setAdminActionLoading false s, Fulfilled)
             end)
    end.

(** *** The e-mail tab *)

Inductive RecipientsType : Type :=
| to_all
| to_group
| to_specific_users.

Record EmailTab : Type := {
  emailRecipientsType : RecipientsType;
  emailGroupNames : list string;
  emailSubject : string;
  emailMessage : string;
  emailSendingLoading : bool;
  emailSendingMessage : option ActionMessage;
  selectedUserIdsForEmail : list Z
}.

Definition setEmailSendingLoading (v : bool) (e : EmailTab) : EmailTab :=
  {| emailRecipientsType := emailRecipientsType e;
     emailGroupNames := emailGroupNames e; emailSubject := emailSubject e;
     emailMessage := emailMessage e; emailSendingLoading := v;
     emailSendingMessage := emailSendingMessage e;
     selectedUserIdsForEmail := selectedUserIdsForEmail e |}.

Definition setEmailSendingMessage (v : option ActionMessage) (e : EmailTab)
    : EmailTab :=
  {| emailRecipientsType := emailRecipientsType e;
     emailGroupNames := emailGroupNames e; emailSubject := emailSubject e;
     emailMessage := emailMessage e;
     emailSendingLoading := emailSendingLoading e;
     emailSendingMessage := v;
     selectedUserIdsForEmail := selectedUserIdsForEmail e |}.



(** [setSelectedUserIdsForEmail(prev => f(prev))] *)
Definition setSelectedUserIdsForEmail (f : list Z -> list Z) (e : EmailTab)
    : EmailTab :=
  {| emailRecipientsType := emailRecipientsType e;
     emailGroupNames := emailGroupNames e; emailSubject := emailSubject e;
     emailMessage := emailMessage e;
     emailSendingLoading := emailSendingLoading e;
     emailSendingMessage := emailSendingMessage e;
     selectedUserIdsForEmail := f (selectedUserIdsForEmail e) |}.

(** [setEmailGroupNames(prev => f(prev))] *)
Definition setEmailGroupNames (f : list string -> list string) (e : EmailTab)
    : EmailTab :=
  {| emailRecipientsType := emailRecipientsType e;
     emailGroupNames := f (emailGroupNames e);
     emailSubject := emailSubject e;
     emailMessage := emailMessage e;
     emailSendingLoading := emailSendingLoading e;
     emailSendingMessage := emailSendingMessage e;
     selectedUserIdsForEmail := selectedUserIdsForEmail e |}.

Definition setEmailRecipientsType (v : RecipientsType) (e : EmailTab)
    : EmailTab :=
  {| emailRecipientsType := v;
     emailGroupNames := emailGroupNames e; emailSubject := emailSubject e;
     emailMessage := emailMessage e;
     emailSendingLoading := emailSendingLoading e;
     emailSendingMessage := emailSendingMessage e;
     selectedUserIdsForEmail := selectedUserIdsForEmail e |}.

(** [Number.MAX_SAFE_INTEGER] *)
Definition MAX_SAFE_INTEGER : Z := 2 ^ 53 - 1.

(** The decimal digits of an integer, with its sign. *)
Definition decimal (n : Z) : string :=
  NilZero.string_of_int (Z.to_int n).

Section Numbers.
(** What [toString()] gives for a number beyond the safe integers, where
    it rounds to the digits that tell the number apart and, from 1e21,
    writes an exponent. *)
Variable beyond : Z -> string.

(** [id.toString()] for an integer. *)
Definition toString (n : Z) : string :=
  if Z.abs n <=? MAX_SAFE_INTEGER then decimal n else beyond n.

(** The body of [POST /admin/send-email]; [None] is [null]. *)
Record EmailData : Type := {
  recipients_type : RecipientsType;
  group_name : option (list string);
  user_identifiers : option (list string);
  subject : string;
  message_body : string
}.




(** [handleEmailSend] up to its [await]: the state it leaves and the
    body it posts, if it posts. *)
Definition handleEmailSend (e : EmailTab) : EmailTab * option EmailData :=
  let kind := emailRecipientsType e in
  let groups := emailGroupNames e in
  let e := setEmailSendingLoading true e in
  let e := setEmailSendingMessage None e in
  let userIdentifiers :=
    match kind with
    | to_specific_users => map toString (selectedUserIdsForEmail e)
    | _ => []
    end in
  let post :=
    (e, Some {| recipients_type := kind;
                group_name :=
                  match kind with to_group => Some groups | _ => None end;
                user_identifiers :=
                  match kind with
                  | to_specific_users => Some userIdentifiers
                  | _ => None
                  end;
                subject := emailSubject e;
                message_body := emailMessage e |}) in
  match kind with
  | to_specific_users =>
      match userIdentifiers with
      | [] =>
          let e :=
            setEmailSendingMessage
              (Some {| type := error;
                       text := "Please select at least one user to send the email to." |})
              e in
          (setEmailSendingLoading false e, None)
      | _ :: _ => post
      end
  | to_group =>
      match groups with
      | [] =>
          let e :=
            setEmailSendingMessage
              (Some {| type := error;
                       text := "Please select at least one group." |}) e in
          (setEmailSendingLoading false e, None)
      | _ :: _ => post
      end
  | to_all => post
  end.

End Numbers.


Definition handleUserSelectionForEmail (userId : Z) (isChecked : bool)
    (e : EmailTab) : EmailTab :=
  setSelectedUserIdsForEmail
    (fun prev =>
       if isChecked then prev ++ [userId]
       else filter (fun id => id <> userId) prev) e.

Definition handleGroupSelectionForEmail (groupName : string)
    (isChecked : bool) (e : EmailTab) : EmailTab :=
  setEmailGroupNames
    (fun prev =>
       if isChecked then prev ++ [groupName]
       else filter (fun name => name <> groupName) prev) e.

(** The [onChange] of the recipients selector. *)
Definition handleRecipientsTypeChange (v : RecipientsType) (e : EmailTab)
    : EmailTab :=
  let e := setEmailRecipientsType v e in
  let e := setEmailGroupNames (fun _ => []) e in
  setSelectedUserIdsForEmail (fun _ => []) e.

(** [xs.includes(x)], the [checked] of a checkbox. *)
Definition includes {A : Type} `{EqDecision A} (x : A) (xs : list A) : bool :=
  bool_decide (x ∈ xs).

(** The e-mail tab as first rendered. *)
Definition initialEmailTab : EmailTab :=
  {| emailRecipientsType := to_all; emailGroupNames := [];
     emailSubject := ""; emailMessage := ""; emailSendingLoading := false;
     emailSendingMessage := None; selectedUserIdsForEmail := [] |}.

(** A list entry for the mock identity. *)
Definition johndoe : UserProfileData :=
  {| id := 1; username := "johndoe_cpp"; name := Some "John Doe";
     email := Some "john.doe@example.com"; bio := None;
     nationality := Some "United States"; profile_picture_url := None;
     is_profile_public := true; group := "Premium Plan";
     banned_until := None; ban_reason := None; is_private := None;
     message := None; created_at := None |}.

(** A list entry whose id is 0. *)
Definition ghost : UserProfileData :=
  {| id := 0; username := "ghost"; name := None; email := None;
     bio := None; nationality := None; profile_picture_url := None;
     is_profile_public := false; group := "Basic Plan";
     banned_until := None; ban_reason := None; is_private := None;
     message := None; created_at := None |}.

(** The list on page [current] of [last]. *)
Definition listing (current last : Z) : Page :=
  setPagination
    {| current_page := current; last_page := last; per_page := 15;
       total := 15 * last |}
    initial.

(** The modal open on [u] with the two ban fields as typed. *)
Definition moderating (u : UserProfileData) (reason until : string) : Page :=
  {| users := [u];
     pagination :=
       {| current_page := 1; last_page := 1; per_page := 15; total := 1 |};
     listLoading := false; listError := None; searchQuery := "";
     selectedUser := Some u; modalOpen := true;
     modalActiveTab := moderation;
     banReason := reason; bannedUntil := until; newGroup := group u;
     adminActionLoading := false; adminActionMessage := None |}.

End AdminPanelPage.

(** ** The ranks of the specification *)

Module Spec.

(** The rank of a role label in the words of the specification: the
    position of the label in the hierarchy of seven tiers, and -1, below
    every tier, for a label that is not in it. This follows the
    specification, not the code. *)
Definition rank (label : string) : Z :=
  match AuthContext.GROUP_HIERARCHY !! label with
  | Some n => n
  | None => -1
  end.

(** The label is not the name of a property that every object inherits. *)
Definition ordinary (label : string) : Prop :=
  JS.Object_prototype !! label = None.

End Spec.

(** * Properties *)

(** ** Comparisons and the role table *)

Section Ranks.
Import AuthContext.

Lemma ge_Num (a b : Z) : JS.ge (JS.Num a) (JS.Num b) = true <-> b <= a.
Proof.
  cbn. destruct (Z.ltb_spec a b); cbn; split; intros; try lia; congruence.
Qed.

Lemma ge_Num_Obj (a : Z) (text : string) :
  JS.ge (JS.Num a) (JS.Obj text) = false.
Proof. reflexivity. Qed.

Lemma ge_Obj_Num (text : string) (b : Z) :
  JS.ge (JS.Obj text) (JS.Num b) = false.
Proof. reflexivity. Qed.

(** The table has exactly the seven tiers, ranked 0 to 6. *)
Lemma GROUP_HIERARCHY_tiers (g : string) (n : Z) :
  GROUP_HIERARCHY !! g = Some n <->
  (g, n) ∈ [ ("Basic Plan", 0); ("Premium Plan", 1); ("Junior Support", 2);
             ("Support", 3); ("Senior Support", 4); ("Admin", 5);
             ("Owner", 6) ].
Proof.
  unfold GROUP_HIERARCHY. symmetry. apply elem_of_list_to_map.
  apply (bool_decide_unpack _). vm_compute. reflexivity.
Qed.

Lemma tier_rank_bounds (g : string) (n : Z) :
  GROUP_HIERARCHY !! g = Some n -> 0 <= n <= 6.
Proof.
  intros H. apply GROUP_HIERARCHY_tiers in H.
  repeat (apply elem_of_cons in H as [H | H]; [inversion H; lia |]).
  inversion H.
Qed.

(** No tier is called like a property of [Object.prototype]. *)
Lemma tier_not_inherited (g : string) (n : Z) :
  GROUP_HIERARCHY !! g = Some n -> JS.Object_prototype !! g = None.
Proof.
  intros H. apply GROUP_HIERARCHY_tiers in H.
  repeat (apply elem_of_cons in H as [H | H];
          [inversion H; subst; vm_compute; reflexivity |]).
  inversion H.
Qed.

Lemma privilege_tier (g : string) (n : Z) :
  GROUP_HIERARCHY !! g = Some n -> privilege g = JS.Num n.
Proof. intros H. unfold privilege, JS.Get. rewrite H. reflexivity. Qed.

(** A name with no property at all gets the default. *)
Lemma privilege_default (g : string) :
  GROUP_HIERARCHY !! g = None -> JS.Object_prototype !! g = None ->
  privilege g = JS.Num (-1).
Proof.
  intros H1 H2. unfold privilege, JS.Get. rewrite H1, H2. reflexivity.
Qed.

(** An inherited name gets what it inherits, not the default. *)
Lemma privilege_inherited (g text : string) :
  GROUP_HIERARCHY !! g = None -> JS.Object_prototype !! g = Some text ->
  privilege g = JS.Obj text.
Proof.
  intros H1 H2. unfold privilege, JS.Get. rewrite H1, H2. reflexivity.
Qed.

Lemma privilege_cases (g : string) :
  (exists n, GROUP_HIERARCHY !! g = Some n /\ privilege g = JS.Num n) \/
  (GROUP_HIERARCHY !! g = None /\ privilege g = JS.Num (-1)) \/
  (GROUP_HIERARCHY !! g = None /\ exists text, privilege g = JS.Obj text).
Proof.
  destruct (GROUP_HIERARCHY !! g) as [n |] eqn:Hown.
  - left. exists n. split; [reflexivity | now apply privilege_tier].
  - right. destruct (JS.Object_prototype !! g) as [text |] eqn:Hinh.
    + right. split; [reflexivity |]. exists text.
      now apply privilege_inherited.
    + left. split; [reflexivity |]. now apply privilege_default.
Qed.

(** A group outside the table never reaches a tier. *)
Lemma unknown_below_tier (g r : string) (n : Z) :
  GROUP_HIERARCHY !! g = None -> GROUP_HIERARCHY !! r = Some n ->
  JS.ge (privilege g) (privilege r) = false.
Proof.
  intros Hg Hr. rewrite (privilege_tier _ _ Hr).
  apply tier_rank_bounds in Hr.
  destruct (privilege_cases g) as [(m & Hm & _) | [[_ ->] | [_ [text ->]]]].
  - congruence.
  - cbn. destruct (Z.ltb_spec (-1) n); [reflexivity | lia].
  - reflexivity.
Qed.

(** The loop answers whether some member is reached. *)
Lemma for_of_true (userPrivilege : JS.value) (groups : list string) :
  for_of userPrivilege groups = true <->
  exists r, r ∈ groups /\ JS.ge userPrivilege (privilege r) = true.
Proof.
  induction groups as [| g rest IH]; cbn.
  - split; [discriminate | intros (r & Hr & _); inversion Hr].
  - destruct (JS.ge userPrivilege (privilege g)) eqn:Hg.
    + split; [| reflexivity]. intros _. exists g. split; [left | exact Hg].
    + rewrite IH. split.
      * intros (r & Hr & Hge). exists r. split; [now right | exact Hge].
      * intros (r & Hr & Hge). apply elem_of_cons in Hr as [-> | Hr].
        -- congruence.
        -- exists r. split; assumption.
Qed.

Lemma for_of_false (userPrivilege : JS.value) (groups : list string) :
  for_of userPrivilege groups = false <->
  forall r, r ∈ groups -> JS.ge userPrivilege (privilege r) = false.
Proof.
  induction groups as [| g rest IH]; cbn.
  - split; [intros _ r Hr; inversion Hr | reflexivity].
  - destruct (JS.ge userPrivilege (privilege g)) eqn:Hg.
    + split; [discriminate |]. intros H.
      rewrite <- Hg. apply H. left.
    + rewrite IH. split.
      * intros H r Hr. apply elem_of_cons in Hr as [-> | Hr]; auto.
      * intros H r Hr. apply H. now right.
Qed.

End Ranks.

(** ** The role check *)

Section Privilege.
Import AuthContext.

(** The rank the code computes for an ordinary label is the rank of the
    specification. *)
Lemma privilege_ordinary (label : string) :
  Spec.ordinary label -> privilege label = JS.Num (Spec.rank label).
Proof.
  intros Hordinary. unfold Spec.rank.
  destruct (GROUP_HIERARCHY !! label) as [n |] eqn:Hown.
  - now apply privilege_tier.
  - now apply privilege_default.
Qed.

(** C1, as stated, fails: an Owner, of rank 6, is refused the required
    role [toString], a label outside the hierarchy and so of rank -1,
    alone or in a set; the rank of the identity is at or above the rank
    of the role and the answer is false. *)
Lemma hasPrivilege_rank_not_enough :
  Spec.rank "Owner" = 6 /\
  Spec.rank "toString" = -1 /\
  hasPrivilege (holding (regroup "Owner" MOCK_USER)) (One "toString")
  = false /\
  hasPrivilege (holding (regroup "Owner" MOCK_USER)) (Several ["toString"])
  = false.
Proof. vm_compute. repeat split; reflexivity. Qed.

(** C1, amended. With no identity held [hasPrivilege] answers false.
    With the identity [u] held, and as long as neither the group of [u]
    nor a required role is the name of a property of
    [Object.prototype]: a single required role is granted exactly when
    the rank of [u]'s group is at or above the rank of that role, and a
    set of roles is granted exactly when that rank is at or above the
    rank of at least one member, an OR over the set; the rank of a label
    is its position in the hierarchy, -1 for a label outside it. A user
    of group Support is refused against Admin, Owner, Senior Support. *)
Theorem hasPrivilege_ranks (s : Store) (u : User) :
  (user s = None -> forall required, hasPrivilege s required = false) /\
  (user s = Some u ->
   Spec.ordinary (group u) ->
   (forall r,
      Spec.ordinary r ->
      (hasPrivilege s (One r) = true <->
       Spec.rank r <= Spec.rank (group u))) /\
   (forall rs,
      (forall r, r ∈ rs -> Spec.ordinary r) ->
      (hasPrivilege s (Several rs) = true <->
       exists r, r ∈ rs /\ Spec.rank r <= Spec.rank (group u)))) /\
  (user s = Some u ->
   group u = "Support" ->
   hasPrivilege s (Several ["Admin"; "Owner"; "Senior Support"]) = false).
Proof.
  split; [| split].
  - intros Hnone required. unfold hasPrivilege. rewrite Hnone. reflexivity.
  - intros Hheld Hgroup. unfold hasPrivilege. rewrite Hheld.
    rewrite (privilege_ordinary _ Hgroup). split.
    + intros r Hr. rewrite (privilege_ordinary _ Hr). apply ge_Num.
    + intros rs Hrs. rewrite for_of_true. split.
      * intros (r & Hin & Hge). exists r. split; [exact Hin |].
        rewrite (privilege_ordinary _ (Hrs r Hin)) in Hge.
        now apply ge_Num.
      * intros (r & Hin & Hle). exists r. split; [exact Hin |].
        rewrite (privilege_ordinary _ (Hrs r Hin)). now apply ge_Num.
  - intros Hheld Hgroup. unfold hasPrivilege. rewrite Hheld, Hgroup.
    vm_compute. reflexivity.
Qed.

Lemma hasPrivilege_ranks_witness :
  hasPrivilege (initial ∅) (One "Basic Plan") = false /\
  hasPrivilege (holding (regroup "Support" MOCK_USER))
    (Several ["Admin"; "Owner"; "Senior Support"]) = false /\
  (hasPrivilege (holding (regroup "Support" MOCK_USER))
     (One "Junior Support") = true <-> 2 <= 3) /\
  (hasPrivilege (holding (regroup "Basic Plan" MOCK_USER))
     (Several ["Owner"; "Moderator"]) = true <->
   exists r, r ∈ ["Owner"; "Moderator"] /\ Spec.rank r <= 0).
Proof.
  pose proof (hasPrivilege_ranks (initial ∅) MOCK_USER) as (Hnone & _ & _).
  pose proof (hasPrivilege_ranks (holding (regroup "Support" MOCK_USER))
                (regroup "Support" MOCK_USER)) as (_ & Hheld & Hexample).
  pose proof (hasPrivilege_ranks (holding (regroup "Basic Plan" MOCK_USER))
                (regroup "Basic Plan" MOCK_USER)) as (_ & Hlowest & _).
  destruct (Hheld eq_refl eq_refl) as (Hone & _).
  destruct (Hlowest eq_refl eq_refl) as (_ & Hset).
  split; [apply Hnone; reflexivity |].
  split; [apply Hexample; reflexivity |].
  split; [apply (Hone "Junior Support"); reflexivity |].
  apply Hset. intros r Hr.
  apply elem_of_cons in Hr as [-> | Hr]; [reflexivity |].
  apply elem_of_cons in Hr as [-> | Hr]; [reflexivity |].
  inversion Hr.
Defined.

(** C3, as stated, fails in its second half: [toString] is not in
    the table, yet the rank the code assigns to it is an inherited
    function, not a number, and is not strictly below the rank of a
    tier. *)
Lemma unknown_rank_not_below :
  GROUP_HIERARCHY !! "toString" = None /\
  privilege "toString" = JS.Obj "function toString() { [native code] }" /\
  GROUP_HIERARCHY !! "Basic Plan" = Some 0 /\
  JS.lt (privilege "toString") (privilege "Basic Plan") = false.
Proof. vm_compute. repeat split; reflexivity. Qed.

(** C3, amended. A user whose group is not in the table is refused
    every tier, asked alone or in a set of tiers: the rank of such a
    group is never at or above the rank of a tier. The rank assigned to
    an unknown label that is not the name of a property of
    [Object.prototype] is the default -1, strictly below the rank of
    every tier. *)
Theorem unknown_group_refused (s : Store) (u : User) :
  user s = Some u ->
  GROUP_HIERARCHY !! group u = None ->
  (forall r n,
     GROUP_HIERARCHY !! r = Some n -> hasPrivilege s (One r) = false) /\
  (forall rs,
     (forall r, r ∈ rs -> is_Some (GROUP_HIERARCHY !! r)) ->
     hasPrivilege s (Several rs) = false) /\
  (forall r n,
     GROUP_HIERARCHY !! r = Some n ->
     JS.ge (privilege (group u)) (privilege r) = false /\
     (JS.Object_prototype !! group u = None ->
      privilege (group u) = JS.Num (-1) /\ -1 < n /\
      JS.lt (privilege (group u)) (privilege r) = true)).
Proof.
  intros Hheld Hunknown. unfold hasPrivilege. rewrite Hheld.
  split; [| split].
  - intros r n Hr. now apply unknown_below_tier with n.
  - intros rs Hrs. apply for_of_false. intros r Hin.
    destruct (Hrs r Hin) as [n Hr]. now apply unknown_below_tier with n.
  - intros r n Hr. split.
    + now apply unknown_below_tier with n.
    + intros Hplain.
      rewrite (privilege_default _ Hunknown Hplain), (privilege_tier _ _ Hr).
      apply tier_rank_bounds in Hr.
      split; [reflexivity |]. split; [lia |].
      cbn. apply Z.ltb_lt. lia.
Qed.

Lemma unknown_group_refused_witness :
  hasPrivilege (holding (regroup "Trial Plan" MOCK_USER)) (One "Basic Plan")
  = false /\
  hasPrivilege (holding (regroup "Trial Plan" MOCK_USER))
    (Several ["Basic Plan"; "Owner"]) = false /\
  hasPrivilege (holding (regroup "constructor" MOCK_USER)) (One "Basic Plan")
  = false.
Proof.
  destruct (unknown_group_refused (holding (regroup "Trial Plan" MOCK_USER))
              (regroup "Trial Plan" MOCK_USER) eq_refl eq_refl)
    as (Hone & Hset & _).
  destruct (unknown_group_refused (holding (regroup "constructor" MOCK_USER))
              (regroup "constructor" MOCK_USER) eq_refl eq_refl)
    as (Hinh & _ & _).
  split; [apply (Hone "Basic Plan" 0); reflexivity |].
  split; [| apply (Hinh "Basic Plan" 0); reflexivity].
  apply Hset. intros r Hr.
  apply elem_of_cons in Hr as [-> | Hr]; [exists 0; reflexivity |].
  apply elem_of_cons in Hr as [-> | Hr]; [exists 6; reflexivity |].
  inversion Hr.
Defined.

(** C4. Privilege is monotone in the order of the seven tiers: a user
    whose group is the tier [r1] is granted every tier [r2] ranked
    strictly below [r1]. *)
Theorem hasPrivilege_monotone (s : Store) (u : User) (r1 r2 : string)
    (n1 n2 : Z) :
  user s = Some u ->
  group u = r1 ->
  GROUP_HIERARCHY !! r1 = Some n1 ->
  GROUP_HIERARCHY !! r2 = Some n2 ->
  n2 < n1 ->
  hasPrivilege s (One r2) = true.
Proof.
  intros Hheld Hgroup H1 H2 Hlt. unfold hasPrivilege.
  rewrite Hheld, Hgroup, (privilege_tier _ _ H1), (privilege_tier _ _ H2).
  apply ge_Num. lia.
Qed.

Lemma hasPrivilege_monotone_witness :
  hasPrivilege (holding (regroup "Admin" MOCK_USER)) (One "Support") = true.
Proof.
  apply (hasPrivilege_monotone (holding (regroup "Admin" MOCK_USER))
           (regroup "Admin" MOCK_USER) "Admin" "Support" 5 3);
    [reflexivity | reflexivity | reflexivity | reflexivity | lia].
Defined.

(** C9, as stated, fails: [toString] is not in the table, yet a
    required role of that name is refused even to an Owner, alone or in
    a set, because the table inherits a property of that name and the
    default rank is not used. Nor is it used for a held identity whose
    group is [toString], which is refused the unknown role Moderator. *)
Lemma hasPrivilege_inherited_name_refused :
  GROUP_HIERARCHY !! "toString" = None /\
  hasPrivilege (holding (regroup "Owner" MOCK_USER)) (One "toString")
  = false /\
  hasPrivilege (holding (regroup "Basic Plan" MOCK_USER))
    (Several ["toString"]) = false /\
  GROUP_HIERARCHY !! "Moderator" = None /\
  hasPrivilege (holding (regroup "toString" MOCK_USER)) (One "Moderator")
  = false.
Proof. vm_compute. repeat split; reflexivity. Qed.

(** C9, amended. When neither the held identity's group nor the
    required role is the name of a property of [Object.prototype], a
    required role outside the table is granted to every held identity,
    whatever its group, the lowest tier included; so is a set with such
    a member. An unknown group and an unknown role then get the same
    default rank. *)
Theorem hasPrivilege_unknown_required (s : Store) (u : User) (r : string) :
  user s = Some u ->
  JS.Object_prototype !! group u = None ->
  GROUP_HIERARCHY !! r = None ->
  JS.Object_prototype !! r = None ->
  hasPrivilege s (One r) = true /\
  (forall rs, r ∈ rs -> hasPrivilege s (Several rs) = true) /\
  (GROUP_HIERARCHY !! group u = None -> privilege (group u) = privilege r).
Proof.
  intros Hheld Hplain Hr Hr'.
  assert (Hge : JS.ge (privilege (group u)) (privilege r) = true).
  { rewrite (privilege_default r Hr Hr').
    destruct (GROUP_HIERARCHY !! group u) as [n |] eqn:Hown.
    - rewrite (privilege_tier _ _ Hown). apply ge_Num.
      apply tier_rank_bounds in Hown. lia.
    - rewrite (privilege_default _ Hown Hplain). reflexivity. }
  unfold hasPrivilege. rewrite Hheld. split; [exact Hge |]. split.
  - intros rs Hin. apply for_of_true. exists r. split; assumption.
  - intros Hown.
    now rewrite (privilege_default _ Hown Hplain), (privilege_default r Hr Hr').
Qed.

Lemma hasPrivilege_unknown_required_witness :
  hasPrivilege (holding (regroup "Basic Plan" MOCK_USER)) (One "Moderator")
  = true /\
  hasPrivilege (holding (regroup "Basic Plan" MOCK_USER))
    (Several ["Owner"; "Moderator"]) = true.
Proof.
  destruct (hasPrivilege_unknown_required
              (holding (regroup "Basic Plan" MOCK_USER))
              (regroup "Basic Plan" MOCK_USER) "Moderator"
              eq_refl eq_refl eq_refl eq_refl) as (Hone & Hset & _).
  split; [exact Hone |]. apply Hset. right. left.
Defined.

End Privilege.

(** ** The ban window and the session *)

Section Session.
Import Async AuthContext.

Variable host : string -> Date.t.

Lemma parse_empty : Date.parse host "" = None.
Proof. reflexivity. Qed.

Lemma parse_2020 : Date.parse host "2020-01-01T00:00:00Z" = Some 1577836800000.
Proof. reflexivity. Qed.

Lemma not_nullable_false (o : option string) :
  JS.not_nullable o = false -> exists c rest, o = Some (String c rest).
Proof.
  destruct o as [[| c rest] |]; cbn; try discriminate.
  intros _. now exists c, rest.
Qed.

Lemma isUserObjectBanned_true (now : Z) (userObj : option User) :
  isUserObjectBanned host now userObj = true <->
  exists u until t,
    userObj = Some u /\ banned_until u = Some until /\
    Date.parse host until = Some t /\ now < t.
Proof.
  unfold isUserObjectBanned. split.
  - destruct userObj as [u |]; [| discriminate].
    destruct (banned_until u) as [until |] eqn:Huntil; cbn; [| discriminate].
    destruct (JS.not_string until); [discriminate |].
    destruct (Date.parse host until) as [t |] eqn:Ht; cbn; [| discriminate].
    intros Hlt. exists u, until, t. repeat split; try assumption.
    now apply Z.ltb_lt.
  - intros (u & until & t & -> & Huntil & Ht & Hlt). rewrite Huntil. cbn.
    destruct until as [| c rest]; [rewrite parse_empty in Ht; discriminate |].
    cbn [JS.not_string]. rewrite Ht. cbn. now apply Z.ltb_lt.
Qed.

(** C2. [isBanned()] is true exactly when an identity is held whose
    [banned_until] is not null and parses to a time strictly after the
    clock at the call. It is a function of the store and of that clock
    alone: the same store answers true before the instant and false from
    the instant on. With [banned_until] 2020-01-01T00:00:00Z and a clock
    in 2025 the answer is false. *)
Theorem isBanned_spec (now : Z) (s : Store) :
  (isBanned host now s = true <->
   exists u until t,
     user s = Some u /\ banned_until u = Some until /\
     Date.parse host until = Some t /\ now < t) /\
  (forall u until t before after,
     user s = Some u -> banned_until u = Some until ->
     Date.parse host until = Some t ->
     before < t <= after ->
     isBanned host before s = true /\ isBanned host after s = false) /\
  (forall u,
     user s = Some u -> banned_until u = Some "2020-01-01T00:00:00Z" ->
     1735689600000 <= now < 1767225600000 ->
     isBanned host now s = false).
Proof.
  split; [apply isUserObjectBanned_true |]. split.
  - intros u until t before after Hu Huntil Ht [Hbefore Hafter]. split.
    + apply isUserObjectBanned_true. now exists u, until, t.
    + apply not_true_is_false. intros Hbanned.
      apply isUserObjectBanned_true in Hbanned
        as (u' & until' & t' & Hu' & Huntil' & Ht' & Hlt).
      rewrite Hu in Hu'. injection Hu' as <-.
      rewrite Huntil in Huntil'. injection Huntil' as <-.
      rewrite Ht in Ht'. injection Ht' as <-. lia.
  - intros u Hu Huntil Hnow. apply not_true_is_false. intros Hbanned.
    apply isUserObjectBanned_true in Hbanned
      as (u' & until' & t' & Hu' & Huntil' & Ht' & Hlt).
    rewrite Hu in Hu'. injection Hu' as <-.
    rewrite Huntil in Huntil'. injection Huntil' as <-.
    rewrite parse_2020 in Ht'. injection Ht' as <-. lia.
Qed.

(** C8, amended. When [login] fails because its request is rejected,
    the part of the handler that runs after the request leaves the held
    identity, the storage with its token, and the two popup flags as it
    finds them; the part before the request only raises [isLoading].
    Run as a whole, such a login leaves the store as it was but for
    [isLoading], which ends false. *)
Theorem login_rejected_untouched (Credentials : Type)
    (credentials : Credentials) (s : Store) (now : Z) (error : AxiosError) :
  (forall current,
     resume (login host Credentials credentials s) now (Rejected error)
       current
     = (setIsLoading false current, Thrown error)) /\
  state_of (login host Credentials credentials s) = setIsLoading true s /\
  snd (run (login host Credentials credentials s) now (Rejected error))
  = Thrown error /\
  user (fst (run (login host Credentials credentials s) now (Rejected error)))
  = user s /\
  localStorage
    (fst (run (login host Credentials credentials s) now (Rejected error)))
  = localStorage s /\
  fst (run (login host Credentials credentials s) now (Rejected error))
  = setIsLoading false s.
Proof. repeat split. Qed.

End Session.

Lemma isBanned_spec_witness :
  AuthContext.isBanned (fun _ => None) 1750000000000
    (AuthContext.holding
       (AuthContext.ban "2020-01-01T00:00:00Z" "spam" AuthContext.MOCK_USER))
  = false /\
  AuthContext.isBanned (fun _ => None) 1750000000000
    (AuthContext.holding
       (AuthContext.ban "2030-01-01T00:00:00Z" "spam" AuthContext.MOCK_USER))
  = true /\
  AuthContext.isBanned (fun _ => None) 1900000000000
    (AuthContext.holding
       (AuthContext.ban "2030-01-01T00:00:00Z" "spam" AuthContext.MOCK_USER))
  = false.
Proof.
  pose proof (isBanned_spec (fun _ => None) 1750000000000
                (AuthContext.holding
                   (AuthContext.ban "2020-01-01T00:00:00Z" "spam"
                      AuthContext.MOCK_USER))) as (_ & _ & Hexample).
  pose proof (isBanned_spec (fun _ => None) 1750000000000
                (AuthContext.holding
                   (AuthContext.ban "2030-01-01T00:00:00Z" "spam"
                      AuthContext.MOCK_USER))) as (_ & Hflip & _).
  split.
  - apply (Hexample _ eq_refl eq_refl). lia.
  - apply (Hflip _ _ 1893456000000 1750000000000 1900000000000
             eq_refl eq_refl eq_refl). lia.
Defined.

(** C8, as stated, fails: the request is fulfilled with a body that
    has a token and no user; the login throws, so it fails, after the
    token of the session has been overwritten and the held identity
    replaced by none. *)
Lemma login_fails_after_writing :
  snd (Async.run
         (AuthContext.login (fun _ => None) string "alice:secret"
            (AuthContext.holding AuthContext.MOCK_USER))
         1750000000000
         (Async.Resolved
            (AuthContext.data_of (JS.Present "fresh-token") JS.Missing)))
  = Async.Thrown AuthContext.TypeError /\
  AuthContext.user (AuthContext.holding AuthContext.MOCK_USER)
  = Some AuthContext.MOCK_USER /\
  AuthContext.user
    (fst (Async.run
            (AuthContext.login (fun _ => None) string "alice:secret"
               (AuthContext.holding AuthContext.MOCK_USER))
            1750000000000
            (Async.Resolved
               (AuthContext.data_of (JS.Present "fresh-token") JS.Missing))))
  = None /\
  AuthContext.localStorage (AuthContext.holding AuthContext.MOCK_USER)
  !! "auth_token" = Some "token-of-the-session" /\
  AuthContext.localStorage
    (fst (Async.run
            (AuthContext.login (fun _ => None) string "alice:secret"
               (AuthContext.holding AuthContext.MOCK_USER))
            1750000000000
            (Async.Resolved
               (AuthContext.data_of (JS.Present "fresh-token") JS.Missing))))
  !! "auth_token" = Some "fresh-token".
Proof. vm_compute. repeat split; reflexivity. Qed.

Lemma login_rejected_untouched_witness :
  AuthContext.user
    (fst (Async.run
            (AuthContext.login (fun _ => None) string "alice:secret"
               (AuthContext.holding AuthContext.MOCK_USER))
            1750000000000
            (Async.Rejected {| Async.message := Some "Invalid credentials" |})))
  = Some AuthContext.MOCK_USER /\
  AuthContext.localStorage
    (fst (Async.run
            (AuthContext.login (fun _ => None) string "alice:secret"
               (AuthContext.holding AuthContext.MOCK_USER))
            1750000000000
            (Async.Rejected {| Async.message := Some "Invalid credentials" |})))
  !! "auth_token" = Some "token-of-the-session".
Proof.
  destruct (login_rejected_untouched (fun _ => None) string "alice:secret"
              (AuthContext.holding AuthContext.MOCK_USER) 1750000000000
              {| Async.message := Some "Invalid credentials" |})
    as (_ & _ & _ & Huser & Hstorage & _).
  split; [exact Huser |]. rewrite Hstorage. reflexivity.
Defined.

(** ** The dashboard *)

Section Dashboard.
Import Async AdminPanelPage.

(** Decides the two comparisons of the page test. *)
Ltac page_test :=
  repeat match goal with
         | |- context [Z.leb ?a ?b] => destruct (Z.leb_spec a b)
         end;
  cbn; try (repeat split; reflexivity).

(** C5. A page change to a page outside [1, last_page], page 0 and
    page last_page + 1 among them, issues no request and leaves the
    whole state, the user list and the pagination included, as it is; a
    page change to a page inside the interval issues the fetch of that
    page with the current search text. *)
Theorem handlePageChange_bounds (page : Z) (s : Page) :
  (page < 1 \/ last_page (pagination s) < page ->
   requests_of (handlePageChange page s) = [] /\
   state_of (handlePageChange page s) = s) /\
  (1 <= page <= last_page (pagination s) ->
   requests_of (handlePageChange page s) = [GET_users page (searchQuery s)] /\
   users (state_of (handlePageChange page s)) = users s /\
   pagination (state_of (handlePageChange page s)) = pagination s) /\
  handlePageChange 0 s = Done s /\
  handlePageChange (last_page (pagination s) + 1) s = Done s.
Proof.
  unfold handlePageChange. split; [| split; [| split]].
  - intros Houtside. page_test; lia.
  - intros Hinside. page_test; lia.
  - page_test; lia.
  - page_test; lia.
Qed.

(** What a ban that passes the two guards sends and suspends on. *)
Lemma handleBanUser_sent (permanent : bool) (s : Page) (rq : Request) :
  requests_of (handleBanUser permanent s) = [rq] ->
  exists selected c rest,
    selectedUser s = Some selected /\ id selected <> 0 /\
    banReason s = String c rest /\
    (permanent = false -> bannedUntil s <> "") /\
    rq = POST_ban (id selected)
           {| data_banned_until :=
                if permanent then None else Some (bannedUntil s);
              data_ban_reason := banReason s |} /\
    forall now response current,
      resume (handleBanUser permanent s) now response current =
      match response with
      | Resolved _ =>
          (setAdminActionLoading false
             (setSelectedUser
                (fun prev =>
                   match prev with
                   | Some prev =>
                       Some (spread_ban prev
                               (if permanent then None
                                else Some (bannedUntil s))
                               (Some (banReason s)))
                   | None => None
                   end)
                (setAdminActionMessage
                   (Some {| type := success;
                            text := "User " +:+ username selected
                                    +:+ " banned successfully!" |})
                   current)),
           Fulfilled)
      | Rejected err =>
          (setAdminActionLoading false
             (setAdminActionMessage
                (Some {| type := error;
                         text :=
                           JS.or_string (Async.message err)
                             "Failed to ban user. Check privileges or user ID."
                      |})
                current),
           Fulfilled)
      end.
Proof.
  unfold handleBanUser.
  destruct (selectedUser s) as [selected |] eqn:Hsel; [| discriminate].
  destruct (Z.eqb_spec (id selected) 0) as [Hid | Hid]; [discriminate |].
  destruct (banReason s) as [| c rest] eqn:Hreason.
  { rewrite orb_true_r. discriminate. }
  destruct permanent, (bannedUntil s) as [| c' rest'] eqn:Huntil;
    cbn; try discriminate;
    intros [= <-]; exists selected, c, rest;
    (repeat split; try assumption; try discriminate;
     intros now [[] | err] current; reflexivity).
Qed.

(** C6. When a ban action succeeds, the record selected at that moment
    is patched: [ban_reason] becomes the reason that was submitted and
    [banned_until] the date that was submitted (null when none was),
    both read from the form when the action started; every other field
    of the record keeps its value. *)
Theorem handleBanUser_success_patch (permanent : bool) (s : Page)
    (id_sent : Z) (sent : BanData) (now : Z) (current : Page)
    (prev : UserProfileData) :
  requests_of (handleBanUser permanent s) = [POST_ban id_sent sent] ->
  selectedUser current = Some prev ->
  data_ban_reason sent = banReason s /\
  data_banned_until sent =
    (if permanent then None else Some (bannedUntil s)) /\
  selectedUser
    (fst (resume (handleBanUser permanent s) now (Resolved tt) current)) =
    Some {| id := id prev; username := username prev; name := name prev;
            email := email prev; bio := bio prev;
            nationality := nationality prev;
            profile_picture_url := profile_picture_url prev;
            is_profile_public := is_profile_public prev;
            group := group prev;
            banned_until := data_banned_until sent;
            ban_reason := Some (data_ban_reason sent);
            is_private := is_private prev; message := message prev;
            created_at := created_at prev |}.
Proof.
  intros Hsent Hprev.
  destruct (handleBanUser_sent _ _ _ Hsent)
    as (selected & c & rest & _ & _ & _ & _ & Hrq & Hresume).
  injection Hrq as -> ->. rewrite Hresume. cbn.
  rewrite Hprev. repeat split.
Qed.

(** C7, as stated, fails: with the selected user's id 0 and no ban
    reason, the handler returns at its first guard; no request is made
    and the record is unchanged, but no message is set either. *)
Lemma handleBanUser_guard_silent :
  banReason (moderating ghost "" "") = "" /\
  requests_of (handleBanUser false (moderating ghost "" "")) = [] /\
  adminActionMessage (state_of (handleBanUser false (moderating ghost "" "")))
  = None.
Proof. repeat split. Qed.

(** C7, amended. A ban action with a missing reason, or a ban that is
    not permanent with a missing date, issues no request and leaves the
    selected record unchanged. When a user with a non-zero id is
    selected it sets the local error message and changes nothing else;
    when no user is selected or the id is 0 it returns before the check
    and changes nothing. *)
Theorem handleBanUser_missing_fields (permanent : bool) (s : Page) :
  banReason s = "" \/ (permanent = false /\ bannedUntil s = "") ->
  requests_of (handleBanUser permanent s) = [] /\
  selectedUser (state_of (handleBanUser permanent s)) = selectedUser s /\
  (forall selected,
     selectedUser s = Some selected -> id selected <> 0 ->
     state_of (handleBanUser permanent s) =
     setAdminActionMessage
       (Some {| type := error; text := "Please fill all ban fields." |}) s) /\
  (selectedUser s = None \/
   (exists selected, selectedUser s = Some selected /\ id selected = 0) ->
   state_of (handleBanUser permanent s) = s).
Proof.
  intros Hmissing.
  assert (Hcheck : (negb permanent && JS.not_string (bannedUntil s))
                   || JS.not_string (banReason s) = true).
  { destruct Hmissing as [-> | [-> ->]]; [apply orb_true_r | reflexivity]. }
  unfold handleBanUser.
  destruct (selectedUser s) as [selected |] eqn:Hsel.
  - destruct (Z.eqb_spec (id selected) 0) as [Hid | Hid].
    + split; [reflexivity |]. split; [exact Hsel |]. split.
      * intros selected' [= <-] Hne. contradiction.
      * reflexivity.
    + rewrite Hcheck. cbn. split; [reflexivity |]. split; [exact Hsel |].
      split.
      * reflexivity.
      * intros [Hnone | (selected' & [= <-] & Hzero)];
          [discriminate | contradiction].
  - split; [reflexivity |]. split; [exact Hsel |]. split.
    + intros selected' [=].
    + reflexivity.
Qed.

(** C10. After a permanent ban has succeeded, one sent without a
    [banned_until], the patched record has [banned_until] null, and the
    dashboard's own check of that record is falsy at every time: the
    user just banned for good is shown as not banned. *)
Theorem permanent_ban_reads_not_banned (host : string -> Date.t)
    (s : Page) (rq : Request) (now : Z) (current : Page)
    (prev : UserProfileData) :
  requests_of (handleBanUser true s) = [rq] ->
  selectedUser current = Some prev ->
  exists id_sent patched,
    rq = POST_ban id_sent
           {| data_banned_until := None; data_ban_reason := banReason s |} /\
    selectedUser
      (fst (resume (handleBanUser true s) now (Resolved tt) current))
    = Some patched /\
    banned_until patched = None /\
    forall clock,
      isUserBanned host clock patched = JS.Operand None /\
      JS.truthy (isUserBanned host clock patched) = false.
Proof.
  intros Hsent Hprev.
  destruct (handleBanUser_sent _ _ _ Hsent)
    as (selected & c & rest & _ & _ & _ & _ & Hrq & Hresume).
  exists (id selected),
    (spread_ban prev None (Some (banReason s))).
  split; [exact Hrq |]. rewrite Hresume. cbn. rewrite Hprev.
  repeat split.
Qed.

Lemma handlePageChange_bounds_witness :
  requests_of (handlePageChange 4 (listing 2 3)) = [] /\
  state_of (handlePageChange (-1) (listing 2 3)) = listing 2 3 /\
  requests_of (handlePageChange 3 (listing 2 3)) = [GET_users 3 ""].
Proof.
  destruct (handlePageChange_bounds 4 (listing 2 3)) as (Hout & _).
  destruct (handlePageChange_bounds (-1) (listing 2 3)) as (Hout' & _).
  destruct (handlePageChange_bounds 3 (listing 2 3)) as (_ & Hin & _).
  split; [apply Hout; right; cbn; lia |].
  split; [apply Hout'; left; lia |].
  apply Hin. cbn. lia.
Defined.

Lemma handleBanUser_success_patch_witness :
  selectedUser
    (fst (run (handleBanUser false
                 (moderating johndoe "spam" "2030-01-01T00:00"))
            1750000000000 (Resolved tt)))
  = Some (spread_ban johndoe (Some "2030-01-01T00:00") (Some "spam")).
Proof.
  destruct (handleBanUser_success_patch false
              (moderating johndoe "spam" "2030-01-01T00:00") 1
              {| data_banned_until := Some "2030-01-01T00:00";
                 data_ban_reason := "spam" |}
              1750000000000
              (state_of (handleBanUser false
                           (moderating johndoe "spam" "2030-01-01T00:00")))
              johndoe eq_refl eq_refl) as (_ & _ & Hpatched).
  exact Hpatched.
Defined.

Lemma handleBanUser_missing_fields_witness :
  requests_of
    (handleBanUser false (moderating johndoe "" "2030-01-01T00:00")) = [] /\
  adminActionMessage
    (state_of
       (handleBanUser false (moderating johndoe "" "2030-01-01T00:00")))
  = Some {| type := error; text := "Please fill all ban fields." |} /\
  selectedUser
    (state_of
       (handleBanUser false (moderating johndoe "" "2030-01-01T00:00")))
  = Some johndoe.
Proof.
  destruct (handleBanUser_missing_fields false
              (moderating johndoe "" "2030-01-01T00:00")
              (or_introl eq_refl))
    as (Hnone & Hsel & Hmsg & _).
  split; [exact Hnone |]. split; [| exact Hsel].
  rewrite (Hmsg johndoe eq_refl); [reflexivity | cbn; lia].
Defined.

Lemma permanent_ban_reads_not_banned_witness :
  exists id_sent patched,
    POST_ban 1 {| data_banned_until := None; data_ban_reason := "spam" |}
    = POST_ban id_sent
        {| data_banned_until := None;
           data_ban_reason := banReason (moderating johndoe "spam" "") |} /\
    selectedUser
      (fst (resume (handleBanUser true (moderating johndoe "spam" ""))
              1750000000000 (Resolved tt)
              (state_of (handleBanUser true (moderating johndoe "spam" "")))))
    = Some patched /\
    banned_until patched = None /\
    forall clock,
      isUserBanned (fun _ => None) clock patched = JS.Operand None /\
      JS.truthy (isUserBanned (fun _ => None) clock patched) = false.
Proof.
  exact (permanent_ban_reads_not_banned (fun _ => None)
           (moderating johndoe "spam" "")
           (POST_ban 1
              {| data_banned_until := None; data_ban_reason := "spam" |})
           1750000000000
           (state_of (handleBanUser true (moderating johndoe "spam" "")))
           johndoe eq_refl eq_refl).
Defined.

End Dashboard.

(** ** More of the session store *)

Section Provider_facts.
Import Async AuthContext.

Variable host : string -> Date.t.

Lemma Store_eq (a b : Store) :
  user a = user b -> isLoading a = isLoading b ->
  isVerifying a = isVerifying b ->
  showVerificationPopup a = showVerificationPopup b ->
  showBanPopup a = showBanPopup b -> localStorage a = localStorage b ->
  a = b.
Proof. destruct a, b; cbn; intros; subst; reflexivity. Qed.

(** X1. [logout] may be repeated without effect. After it no identity
    is held, the token is gone, so that no request carries an
    [Authorization] header, every other key of the storage is as it was,
    both popups are down, no privilege is granted and nobody is banned. *)
Theorem logout_clears (s : Store) :
  logout (logout s) = logout s /\
  user (logout s) = None /\
  Authorization (logout s) = None /\
  (forall key,
     key <> "auth_token" ->
     localStorage (logout s) !! key = localStorage s !! key) /\
  showVerificationPopup (logout s) = false /\
  showBanPopup (logout s) = false /\
  isLoading (logout s) = isLoading s /\
  (forall required, hasPrivilege (logout s) required = false) /\
  (forall now, isBanned host now (logout s) = false).
Proof.
  repeat split.
  - apply Store_eq; try reflexivity. cbn. apply delete_delete_eq.
  - unfold Authorization. cbn. now rewrite lookup_delete_eq.
  - intros key Hkey. cbn. apply lookup_delete_ne. congruence.
Qed.

(** X2. A ban only runs out: if [isBanned()] is true at some time, it
    was true at every earlier time for the same store; once false it
    stays false. *)
Theorem isBanned_expires (s : Store) (now later : Z) :
  now <= later ->
  isBanned host later s = true ->
  isBanned host now s = true.
Proof.
  intros Hle Hlater. unfold isBanned in *.
  apply isUserObjectBanned_true in Hlater
    as (u & until & t & Hu & Huntil & Ht & Hlt).
  apply isUserObjectBanned_true. exists u, until, t.
  repeat split; try assumption. lia.
Qed.

(** X3. The ban check of the store and the ban check of the dashboard
    agree on every two records with the same [banned_until], at every
    time. *)
Theorem ban_checks_agree (now : Z) (listed : AdminPanelPage.UserProfileData)
    (held : User) :
  AdminPanelPage.banned_until listed = banned_until held ->
  JS.truthy (AdminPanelPage.isUserBanned host now listed) =
  isUserObjectBanned host now (Some held).
Proof.
  intros Hsame. unfold AdminPanelPage.isUserBanned, isUserObjectBanned.
  rewrite Hsame. destruct (banned_until held) as [[| c until] |]; reflexivity.
Qed.

(** X4. Restoring the session never throws and always ends with
    [isVerifying] false. The request for the identity is sent exactly
    when the storage holds a non-empty token, that is when the request
    will carry an [Authorization] header; without one the held identity
    is not touched. *)
Theorem verifyAuth_settles (Registration : Type) (s : Store) (now : Z)
    (response : Response User) :
  snd (run (verifyAuth host Registration s) now response) = Fulfilled /\
  isVerifying (fst (run (verifyAuth host Registration s) now response))
  = false /\
  (requests_of (verifyAuth host Registration s) = [GET_user Registration] <->
   exists header, Authorization s = Some header) /\
  (Authorization s = None ->
   requests_of (verifyAuth host Registration s) = [] /\
   user (fst (run (verifyAuth host Registration s) now response)) = user s).
Proof.
  unfold run, verifyAuth, Authorization.
  destruct (localStorage s !! "auth_token") as [[| c token] |]; cbn.
  - repeat split; try discriminate. intros [header [=]].
  - destruct response as [data | err]; cbn;
      (repeat split; try discriminate; eauto).
  - repeat split; try discriminate. intros [header [=]].
Qed.

(** X5. When the restoring request is rejected, whatever the store is
    at that moment, the token is removed, no identity is held, the ban
    popup is down and verification is over; the other keys of the
    storage stay. *)
Theorem verifyAuth_rejected_discards (Registration : Type) (s : Store)
    (now : Z) (error : AxiosError) (current : Store) :
  requests_of (verifyAuth host Registration s) = [GET_user Registration] ->
  resume (verifyAuth host Registration s) now (Rejected error) current =
  (setIsVerifying false
     (setShowBanPopup false
        (setUser None (removeItem "auth_token" current))), Fulfilled) /\
  Authorization
    (fst (resume (verifyAuth host Registration s) now (Rejected error)
            current)) = None /\
  forall key,
    key <> "auth_token" ->
    localStorage
      (fst (resume (verifyAuth host Registration s) now (Rejected error)
              current)) !! key
    = localStorage current !! key.
Proof.
  unfold verifyAuth.
  destruct (localStorage s !! "auth_token") as [[| c token] |]; cbn;
    try discriminate.
  intros _. split; [reflexivity |]. split.
  - unfold Authorization. cbn. now rewrite lookup_delete_eq.
  - intros key Hkey. apply lookup_delete_ne. congruence.
Qed.

(** X6. When the restoring request succeeds, the identity received is
    held and verification is over. The ban popup is raised if that
    identity is banned but is not lowered if it is not; the effect that
    follows a change of the identity then makes the popup equal to the
    ban check, whatever it was. *)
Theorem verifyAuth_success_then_effect (Registration : Type) (s : Store)
    (now : Z) (data : User) (current : Store) (after : Z) :
  requests_of (verifyAuth host Registration s) = [GET_user Registration] ->
  user (fst (resume (verifyAuth host Registration s) now (Resolved data)
               current)) = Some data /\
  isVerifying (fst (resume (verifyAuth host Registration s) now
                      (Resolved data) current)) = false /\
  showBanPopup (fst (resume (verifyAuth host Registration s) now
                       (Resolved data) current))
  = isUserObjectBanned host now (Some data) || showBanPopup current /\
  showBanPopup
    (banEffect host after
       (fst (resume (verifyAuth host Registration s) now (Resolved data)
               current)))
  = isUserObjectBanned host after (Some data).
Proof.
  unfold verifyAuth.
  destruct (localStorage s !! "auth_token") as [[| c token] |];
    cbn -[isUserObjectBanned]; try discriminate.
  intros _.
  destruct (JS.not_nullable (email_verified_at data)),
    (isUserObjectBanned host now (Some data)); cbn -[isUserObjectBanned];
    (split; [reflexivity |]); (split; [reflexivity |]);
    (split; [reflexivity |]);
    destruct (isUserObjectBanned host after (Some data)); reflexivity.
Qed.

(** X7. When a login succeeds, whatever the store is at that moment,
    the identity received is held, the token received is stored under
    [auth_token] and the other keys are kept, the ban popup equals the
    ban check of the new identity at that time, the verification popup
    is raised for an unverified address and otherwise left as it is, and
    [isLoading] is false. *)
Theorem login_success_establishes (Credentials : Type)
    (credentials : Credentials) (s : Store) (now : Z)
    (access_token : JS.member string) (userData : User) (current : Store) :
  snd (resume (login host Credentials credentials s) now
         (Resolved (data_of access_token (JS.Present userData))) current)
  = Fulfilled /\
  user (fst (resume (login host Credentials credentials s) now
               (Resolved (data_of access_token (JS.Present userData)))
               current)) = Some userData /\
  localStorage (fst (resume (login host Credentials credentials s) now
                       (Resolved (data_of access_token (JS.Present userData)))
                       current))
  = <["auth_token" := JS.String_of access_token]> (localStorage current) /\
  showBanPopup (fst (resume (login host Credentials credentials s) now
                       (Resolved (data_of access_token (JS.Present userData)))
                       current))
  = isBanned host now
      (fst (resume (login host Credentials credentials s) now
              (Resolved (data_of access_token (JS.Present userData)))
              current)) /\
  showVerificationPopup
    (fst (resume (login host Credentials credentials s) now
            (Resolved (data_of access_token (JS.Present userData))) current))
  = JS.not_nullable (email_verified_at userData)
    || showVerificationPopup current /\
  isLoading (fst (resume (login host Credentials credentials s) now
                    (Resolved (data_of access_token (JS.Present userData)))
                    current)) = false.
Proof.
  unfold isBanned. cbn -[isUserObjectBanned].
  destruct (JS.not_nullable (email_verified_at userData)),
    (isUserObjectBanned host now (Some userData)) eqn:Hbanned;
    cbn -[isUserObjectBanned]; rewrite ?Hbanned; repeat split.
Qed.

(** X8. The token makes the round trip: after a login whose request
    is fulfilled with an object, the interceptor sends [Bearer] followed
    by the token received, unless that token is empty; and a logout
    after the login leaves the store that a logout alone leaves, with
    [isLoading] false. *)
Theorem login_token_round_trip (Credentials : Type)
    (credentials : Credentials) (s : Store) (now : Z)
    (access_token : JS.member string) (userData : JS.member User)
    (current : Store) :
  Authorization
    (fst (resume (login host Credentials credentials s) now
            (Resolved (data_of access_token userData)) current))
  = (if JS.not_string (JS.String_of access_token) then None
     else Some ("Bearer " +:+ JS.String_of access_token)) /\
  logout
    (fst (resume (login host Credentials credentials s) now
            (Resolved (data_of access_token userData)) current))
  = setIsLoading false (logout current).
Proof.
  split.
  - unfold Authorization.
    replace (localStorage _ !! "auth_token")
      with (Some (JS.String_of access_token)).
    + reflexivity.
    + destruct userData as [| | held]; cbn -[isUserObjectBanned];
        try (now rewrite lookup_insert_eq).
      destruct (JS.not_nullable (email_verified_at held)),
        (isUserObjectBanned host now (Some held)); cbn;
        now rewrite lookup_insert_eq.
  - apply Store_eq;
      destruct userData as [| | held]; cbn -[isUserObjectBanned];
      try reflexivity; try apply delete_insert_eq;
      destruct (JS.not_nullable (email_verified_at held)),
        (isUserObjectBanned host now (Some held)); cbn;
      try reflexivity; apply delete_insert_eq.
Qed.


Lemma default_later {A : Type} (x : A) (a b : option A) :
  default (default x a) b = default x (Partial.later a b).
Proof. destruct a, b; reflexivity. Qed.

Lemma spread_merge (prev : User) (a b : Partial.t) :
  spread (spread prev a) b = spread prev (Partial.merge a b).
Proof. unfold spread, Partial.merge. cbn. now rewrite !default_later. Qed.

(** X9. With no identity held [updateUser] changes nothing, whatever
    it is given. *)
Theorem updateUser_without_identity (now : Z) (newUserData : Partial.t)
    (s : Store) :
  user s = None ->
  updateUser host now newUserData s = s.
Proof.
  intros Hnone. unfold updateUser. rewrite Hnone.
  apply Store_eq; try reflexivity. cbn. now rewrite Hnone.
Qed.


(** X11. Two updates in a row are one update with the two objects
    spread together, the members of the second winning; the ban popup
    is that of the second. *)
Theorem updateUser_twice (first second : Z) (a b : Partial.t) (s : Store) :
  updateUser host second b (updateUser host first a s)
  = updateUser host second (Partial.merge a b) s.
Proof.
  unfold updateUser. destruct (user s) as [prev |] eqn:Hheld.
  - destruct (isUserObjectBanned host first (Some (spread prev a)));
      cbn -[isUserObjectBanned spread Partial.merge];
      rewrite spread_merge;
      destruct (isUserObjectBanned host second
                  (Some (spread prev (Partial.merge a b))));
      reflexivity.
  - reflexivity.
Qed.

(** X12. Registering and asking again for the verification e-mail
    never change the identity, the storage or the popups, whether the
    request succeeds or not; each throws exactly when its request is
    rejected, registration ends with [isLoading] false, and the
    verification e-mail is asked for only while an identity is held. *)
Theorem register_and_resend_keep_session (Registration : Type)
    (data : Registration) (s : Store) (now : Z) (response : Response unit)
    (current : Store) :
  fst (resume (register Registration data s) now response current)
  = setIsLoading false current /\
  (forall error,
     snd (resume (register Registration data s) now response current)
     = Thrown error <-> response = Rejected error) /\
  fst (run (resendVerificationEmail Registration s) now response) = s /\
  (forall error,
     snd (run (resendVerificationEmail Registration s) now response)
     = Thrown error <->
     response = Rejected error /\ user s <> None) /\
  (requests_of (resendVerificationEmail Registration s) = [] <->
   user s = None).
Proof.
  unfold run, resendVerificationEmail.
  destruct response as [[] | err], (user s) as [held |]; cbn;
    repeat split; try discriminate; try congruence;
    try (intros [? ?]; congruence); try (intros [= ->]; split; congruence).
Qed.

End Provider_facts.

Lemma isBanned_expires_witness :
  AuthContext.isBanned (fun _ => None) 1750000000000
    (AuthContext.holding
       (AuthContext.ban "2030-01-01T00:00:00Z" "spam" AuthContext.MOCK_USER))
  = true.
Proof.
  apply (isBanned_expires (fun _ => None) _ 1750000000000 1800000000000);
    [lia | reflexivity].
Defined.

Lemma ban_checks_agree_witness :
  JS.truthy
    (AdminPanelPage.isUserBanned (fun _ => None) 1750000000000
       AdminPanelPage.johndoe)
  = AuthContext.isUserObjectBanned (fun _ => None) 1750000000000
      (Some AuthContext.MOCK_USER).
Proof.
  exact (ban_checks_agree (fun _ => None) 1750000000000
           AdminPanelPage.johndoe AuthContext.MOCK_USER eq_refl).
Defined.

Lemma verifyAuth_rejected_discards_witness :
  AuthContext.user
    (fst (Async.resume
            (AuthContext.verifyAuth (fun _ => None) unit
               (AuthContext.holding AuthContext.MOCK_USER))
            1750000000000
            (Async.Rejected {| Async.message := Some "Unauthenticated." |})
            (AuthContext.holding AuthContext.MOCK_USER)))
  = None /\
  AuthContext.Authorization
    (fst (Async.resume
            (AuthContext.verifyAuth (fun _ => None) unit
               (AuthContext.holding AuthContext.MOCK_USER))
            1750000000000
            (Async.Rejected {| Async.message := Some "Unauthenticated." |})
            (AuthContext.holding AuthContext.MOCK_USER)))
  = None.
Proof.
  destruct (verifyAuth_rejected_discards (fun _ => None) unit
              (AuthContext.holding AuthContext.MOCK_USER) 1750000000000
              {| Async.message := Some "Unauthenticated." |}
              (AuthContext.holding AuthContext.MOCK_USER) eq_refl)
    as (Hstate & Hheader & _).
  split; [now rewrite Hstate | exact Hheader].
Defined.

Lemma verifyAuth_success_then_effect_witness :
  AuthContext.showBanPopup
    (AuthContext.banEffect (fun _ => None) 1750000000001
       (fst (Async.resume
               (AuthContext.verifyAuth (fun _ => None) unit
                  (AuthContext.initial
                     {[ "auth_token" := "token-of-the-session" ]}))
               1750000000000
               (Async.Resolved
                  (AuthContext.ban "2030-01-01T00:00:00Z" "spam"
                     AuthContext.MOCK_USER))
               (AuthContext.initial
                  {[ "auth_token" := "token-of-the-session" ]}))))
  = true.
Proof.
  pose proof (verifyAuth_success_then_effect (fun _ => None) unit
                (AuthContext.initial
                   {[ "auth_token" := "token-of-the-session" ]})
                1750000000000
                (AuthContext.ban "2030-01-01T00:00:00Z" "spam"
                   AuthContext.MOCK_USER)
                (AuthContext.initial
                   {[ "auth_token" := "token-of-the-session" ]})
                1750000000001) as Hrestore.
  assert (Hsent :
            Async.requests_of
              (AuthContext.verifyAuth (fun _ => None) unit
                 (AuthContext.initial
                    {[ "auth_token" := "token-of-the-session" ]}))
            = [AuthContext.GET_user unit]) by reflexivity.
  destruct (Hrestore Hsent) as (_ & _ & _ & Heffect).
  rewrite Heffect. reflexivity.
Defined.

Lemma updateUser_without_identity_witness :
  AuthContext.updateUser (fun _ => None) 1750000000000
    (AuthContext.Partial.merge AuthContext.Partial.empty
       AuthContext.Partial.empty)
    (AuthContext.initial ∅)
  = AuthContext.initial ∅.
Proof.
  exact (updateUser_without_identity (fun _ => None) 1750000000000 _
           (AuthContext.initial ∅) eq_refl).
Defined.


(** ** More of the dashboard *)

Section Authorization_flags.
Import AuthContext.

(** A set of tiers grants exactly the tiers from its lowest member up. *)
Lemma hasPrivilege_tiers (s : Store) (rs : list string) (m : Z) :
  (forall r, r ∈ rs -> exists n, GROUP_HIERARCHY !! r = Some n /\ m <= n) ->
  (exists r, r ∈ rs /\ GROUP_HIERARCHY !! r = Some m) ->
  hasPrivilege s (Several rs) = true <-> AdminPanelPage.ranked_from m s.
Proof.
  intros Hall (low & Hlow & Hm). unfold hasPrivilege, AdminPanelPage.ranked_from.
  destruct (user s) as [u |].
  - rewrite for_of_true. split.
    + intros (r & Hr & Hge). destruct (Hall r Hr) as (n & Hn & Hmn).
      rewrite (privilege_tier _ _ Hn) in Hge.
      destruct (privilege_cases (group u))
        as [(k & Hk & Hpriv) | [[_ Hpriv] | [_ [text Hpriv]]]];
        rewrite Hpriv in Hge.
      * apply ge_Num in Hge. exists u, k. repeat split; [assumption | lia].
      * apply ge_Num in Hge. apply tier_rank_bounds in Hm. lia.
      * discriminate.
    + intros (u' & k & [= <-] & Hk & Hmk). exists low. split; [assumption |].
      rewrite (privilege_tier _ _ Hk), (privilege_tier _ _ Hm).
      now apply ge_Num.
  - split; [discriminate | intros (u' & k & [=] & _)].
Qed.

(** Reads the tiers of a literal list off the table. *)
Ltac tier_of_name :=
  match goal with
  | |- exists n, ?table !! ?r = Some n /\ _ =>
      let rank := eval vm_compute in (table !! r) in
      match rank with
      | Some ?n => exists n; split; [vm_compute; reflexivity | lia]
      end
  end.

Ltac tiers_of_list :=
  intros r Hr;
  repeat (apply elem_of_cons in Hr as [-> | Hr]; [tier_of_name |]);
  inversion Hr.

(** X13. Each authorization flag of the dashboard is true exactly
    when an identity is held whose group is a tier at or above the
    lowest tier of the flag's list: Junior Support for the panel,
    Support for the full information, Senior Support for bans, Admin for
    group changes and for e-mails. So the flags are nested: whoever may
    change groups may ban, whoever may ban sees the full information,
    and whoever sees it has access to the panel. *)
Theorem authorization_flags (auth : Store) :
  (AdminPanelPage.canAccessPanel auth = true <->
   AdminPanelPage.ranked_from 2 auth) /\
  (AdminPanelPage.canSeeFullInfo auth = true <->
   AdminPanelPage.ranked_from 3 auth) /\
  (AdminPanelPage.canBan auth = true <->
   AdminPanelPage.ranked_from 4 auth) /\
  (AdminPanelPage.canChangeGroup auth = true <->
   AdminPanelPage.ranked_from 5 auth) /\
  AdminPanelPage.canSendEmail auth = AdminPanelPage.canChangeGroup auth /\
  (AdminPanelPage.canChangeGroup auth = true ->
   AdminPanelPage.canBan auth = true) /\
  (AdminPanelPage.canBan auth = true ->
   AdminPanelPage.canSeeFullInfo auth = true) /\
  (AdminPanelPage.canSeeFullInfo auth = true ->
   AdminPanelPage.canAccessPanel auth = true).
Proof.
  assert (Hpanel : AdminPanelPage.canAccessPanel auth = true <->
                   AdminPanelPage.ranked_from 2 auth).
  { apply hasPrivilege_tiers; [tiers_of_list |].
    exists "Junior Support". split; [left | reflexivity]. }
  assert (Hinfo : AdminPanelPage.canSeeFullInfo auth = true <->
                  AdminPanelPage.ranked_from 3 auth).
  { apply hasPrivilege_tiers; [tiers_of_list |].
    exists "Support". split; [do 3 right; left | reflexivity]. }
  assert (Hban : AdminPanelPage.canBan auth = true <->
                 AdminPanelPage.ranked_from 4 auth).
  { apply hasPrivilege_tiers; [tiers_of_list |].
    exists "Senior Support". split; [do 2 right; left | reflexivity]. }
  assert (Hgroup : AdminPanelPage.canChangeGroup auth = true <->
                   AdminPanelPage.ranked_from 5 auth).
  { apply hasPrivilege_tiers; [tiers_of_list |].
    exists "Admin". split; [left | reflexivity]. }
  assert (Hweaker : forall a b, a <= b ->
            AdminPanelPage.ranked_from b auth ->
            AdminPanelPage.ranked_from a auth).
  { intros a b Hab (u & n & Hu & Hn & Hbn). exists u, n.
    repeat split; [assumption | assumption | lia]. }
  repeat split; try (apply Hpanel); try (apply Hinfo); try (apply Hban);
    try (apply Hgroup).
  - intros H. apply Hban. apply Hgroup in H. apply (Hweaker 4 5); [lia | exact H].
  - intros H. apply Hinfo. apply Hban in H. apply (Hweaker 3 4); [lia | exact H].
  - intros H. apply Hpanel. apply Hinfo in H. apply (Hweaker 2 3); [lia | exact H].
Qed.

(** X29. The groups that the dashboard offers in its selectors are
    exactly the tiers of the role table of the session store, lowest
    first: the entry at position [n] is the tier ranked [n]. *)
Theorem ALL_GROUPS_are_the_tiers (g : string) (n : Z) :
  GROUP_HIERARCHY !! g = Some n <->
  0 <= n /\ AdminPanelPage.ALL_GROUPS !! Z.to_nat n = Some g.
Proof.
  rewrite GROUP_HIERARCHY_tiers. split.
  - intros Hin.
    repeat (apply elem_of_cons in Hin as [[= -> ->] | Hin];
            [split; [lia | reflexivity] |]).
    inversion Hin.
  - intros [Hpos Hentry].
    assert (Hlt : (Z.to_nat n < 7)%nat).
    { apply lookup_lt_Some in Hentry. exact Hentry. }
    assert (Hcases : n = 0 \/ n = 1 \/ n = 2 \/ n = 3 \/ n = 4 \/ n = 5 \/ n = 6)
      by lia.
    destruct Hcases as [-> | [-> | [-> | [-> | [-> | [-> | ->]]]]]];
      cbn in Hentry; injection Hentry as <-; set_solver.
Qed.

End Authorization_flags.

Section List_facts.
Import Async AdminPanelPage.

(** X14. When a fetch of the list settles, whatever the state is at
    that moment: on success the list and the pagination are replaced by
    those received and nothing of the old ones remains; on failure both
    are kept and the error shown is the server's message, or a fixed
    text when that message is missing or empty. Either way loading is
    over and nothing is thrown. *)
Theorem fetchUsers_settled (page : Z) (search : string) (s : Page) (now : Z)
    (response : Response UsersBody) (current : Page) :
  snd (resume (fetchUsers page search s) now response current) = Fulfilled /\
  listLoading (fst (resume (fetchUsers page search s) now response current))
  = false /\
  selectedUser (fst (resume (fetchUsers page search s) now response current))
  = selectedUser current /\
  match response with
  | Resolved body =>
      users (fst (resume (fetchUsers page search s) now response current))
      = data body /\
      pagination
        (fst (resume (fetchUsers page search s) now response current))
      = meta body /\
      listError (fst (resume (fetchUsers page search s) now response current))
      = listError current
  | Rejected err =>
      users (fst (resume (fetchUsers page search s) now response current))
      = users current /\
      pagination
        (fst (resume (fetchUsers page search s) now response current))
      = pagination current /\
      listError (fst (resume (fetchUsers page search s) now response current))
      = Some (match Async.message err with
              | Some (String c text) => String c text
              | _ => "Failed to load users. Check your permissions."
              end)
  end.
Proof.
  destruct response as [body | [[[| c text] |]]]; cbn; repeat split.
Qed.

(** X15. Nothing guards against a late answer: of two fetches of the
    list, the one whose answer arrives last decides what is shown,
    whichever was asked first. *)
Theorem fetchUsers_last_answer_wins (page1 page2 : Z)
    (search1 search2 : string) (s1 s2 : Page) (now1 now2 : Z)
    (body1 body2 : UsersBody) (current : Page) :
  users
    (fst (resume (fetchUsers page1 search1 s1) now1 (Resolved body1)
            (fst (resume (fetchUsers page2 search2 s2) now2 (Resolved body2)
                    current))))
  = data body1 /\
  pagination
    (fst (resume (fetchUsers page1 search1 s1) now1 (Resolved body1)
            (fst (resume (fetchUsers page2 search2 s2) now2 (Resolved body2)
                    current))))
  = meta body1.
Proof. split; reflexivity. Qed.

(** X16. While the page shown lies in [1, last_page], every
    pagination button that is not disabled fetches, with the current
    search text, a page of that interval other than the page shown; and
    on a one-page list all four buttons are disabled. *)
Theorem pager_enabled_button_fetches (b : PagerButton) (s : Page) :
  1 <= current_page (pagination s) <= last_page (pagination s) ->
  (pager_disabled b s = false ->
   requests_of (pager_onClick b s)
   = [GET_users (pager_page b s) (searchQuery s)] /\
   1 <= pager_page b s <= last_page (pagination s) /\
   pager_page b s <> current_page (pagination s)) /\
  (last_page (pagination s) = 1 -> pager_disabled b s = true).
Proof.
  intros Hshown. split.
  - intros Henabled.
    assert (Hpage : 1 <= pager_page b s <= last_page (pagination s) /\
                    pager_page b s <> current_page (pagination s)).
    { destruct b; cbn in *;
        apply orb_false_elim in Henabled as [Hne _];
        apply Z.eqb_neq in Hne; lia. }
    split; [| exact Hpage].
    unfold pager_onClick, handlePageChange.
    destruct (Z.leb_spec 1 (pager_page b s)); [| lia].
    destruct (Z.leb_spec (pager_page b s) (last_page (pagination s))); [| lia].
    reflexivity.
  - intros Hone. assert (Hcur : current_page (pagination s) = 1) by lia.
    destruct b; cbn; rewrite Hcur, ?Hone; reflexivity.
Qed.

Lemma pager_enabled_button_fetches_witness :
  requests_of (pager_onClick NextPage (listing 2 3)) = [GET_users 3 ""] /\
  pager_disabled LastPage (listing 1 1) = true.
Proof.
  destruct (pager_enabled_button_fetches NextPage (listing 2 3))
    as (Hnext & _); [cbn; lia |].
  destruct (pager_enabled_button_fetches LastPage (listing 1 1))
    as (_ & Hone); [cbn; lia |].
  destruct (Hnext eq_refl) as (Hrequest & _).
  split; [exact Hrequest | exact (Hone eq_refl)].
Defined.

(** X17. The ban button always calls the handler with [permanent]
    false. So whenever it reads Permanent Ban, which is when no date is
    entered, a click sends nothing, whatever the reason entered: the
    moderation tab cannot issue a permanent ban. When it reads Temporary
    Ban, the ban it sends always carries the date. *)
Theorem banButton_never_permanent (s : Page) :
  (banButton_label s = "Permanent Ban" ->
   requests_of (banButton_onClick s) = []) /\
  (forall rq,
     requests_of (banButton_onClick s) = [rq] ->
     banButton_label s = "Temporary Ban" /\
     exists id_sent,
       rq = POST_ban id_sent
              {| data_banned_until := Some (bannedUntil s);
                 data_ban_reason := banReason s |}).
Proof.
  unfold banButton_label, banButton_onClick. split.
  - intros Hlabel. unfold handleBanUser.
    destruct (JS.not_string (bannedUntil s)); [| discriminate].
    destruct (selectedUser s) as [selected |]; [| reflexivity].
    destruct (id selected =? 0); reflexivity.
  - intros rq Hsent.
    destruct (handleBanUser_sent _ _ _ Hsent)
      as (selected & c & rest & _ & _ & _ & Huntil & -> & _).
    split.
    + destruct (bannedUntil s); [now destruct (Huntil eq_refl) | reflexivity].
    + now exists (id selected).
Qed.

End List_facts.

Section Modal_facts.
Import Async AdminPanelPage.

(** What an unban that passes the guard sends and suspends on. *)
Lemma handleUnbanUser_sent (s : Page) (rq : ModalRequest) :
  requests_of (handleUnbanUser s) = [rq] ->
  exists selected,
    selectedUser s = Some selected /\ id selected <> 0 /\
    rq = POST_unban (id selected) /\
    forall now response current,
      resume (handleUnbanUser s) now response current =
      match response with
      | Resolved _ =>
          (setAdminActionLoading false
             (setSelectedUser
                (fun prev =>
                   match prev with
                   | Some prev => Some (spread_ban prev None None)
                   | None => None
                   end)
                (setAdminActionMessage
                   (Some {| type := success;
                            text := "User " +:+ username selected
                                    +:+ " unbanned successfully!" |})
                   current)),
           Fulfilled)
      | Rejected err =>
          (setAdminActionLoading false
             (setAdminActionMessage
                (Some {| type := error;
                         text :=
                           JS.or_string (Async.message err)
                             "Failed to unban user. Check privileges or user ID."
                      |})
                current),
           Fulfilled)
      end.
Proof.
  unfold handleUnbanUser.
  destruct (selectedUser s) as [selected |] eqn:Hsel; [| discriminate].
  destruct (Z.eqb_spec (id selected) 0) as [Hid | Hid]; [discriminate |].
  cbn. intros [= <-]. exists selected.
  repeat split; assumption.
Qed.

(** What a group change that passes the check sends and suspends on. *)
Lemma handleUpdateGroup_sent (s : Page) (rq : ModalRequest) :
  requests_of (handleUpdateGroup s) = [rq] ->
  exists selected c rest,
    selectedUser s = Some selected /\ id selected <> 0 /\
    newGroup s = String c rest /\
    rq = PUT_group (id selected) (newGroup s) /\
    forall now response current,
      resume (handleUpdateGroup s) now response current =
      match response with
      | Resolved _ =>
          (setAdminActionLoading false
             (setSelectedUser
                (fun prev =>
                   match prev with
                   | Some prev => Some (spread_group prev (newGroup s))
                   | None => None
                   end)
                (setAdminActionMessage
                   (Some {| type := success;
                            text := "User " +:+ username selected
                                    +:+ " group updated to " +:+ newGroup s
                                    +:+ "!" |})
                   current)),
           Fulfilled)
      | Rejected err =>
          (setAdminActionLoading false
             (setAdminActionMessage
                (Some {| type := error;
                         text :=
                           JS.or_string (Async.message err)
                             "Failed to update group. Check privileges or user ID."
                      |})
                current),
           Fulfilled)
      end.
Proof.
  unfold handleUpdateGroup, no_selected_id.
  destruct (selectedUser s) as [selected |] eqn:Hsel; [| discriminate].
  destruct (Z.eqb_spec (id selected) 0) as [Hid | Hid]; [discriminate |].
  destruct (newGroup s) as [| c rest] eqn:Hgroup; [discriminate |].
  cbn. intros [= <-]. exists selected, c, rest.
  repeat split; assumption.
Qed.

(** X18. An unban is sent exactly when a user with a non-zero id is
    selected, banned or not. When it succeeds, the record selected at
    that moment has [banned_until] and [ban_reason] null and its other
    fields unchanged, and the dashboard's ban check of it is falsy at
    every time. *)
Theorem handleUnbanUser_success (host : string -> Date.t) (s : Page)
    (now : Z) (current : Page) (prev : UserProfileData) :
  (requests_of (handleUnbanUser s) <> [] <->
   exists selected, selectedUser s = Some selected /\ id selected <> 0) /\
  (requests_of (handleUnbanUser s) <> [] ->
   selectedUser current = Some prev ->
   selectedUser (fst (resume (handleUnbanUser s) now (Resolved tt) current))
   = Some {| id := id prev; username := username prev; name := name prev;
             email := email prev; bio := bio prev;
             nationality := nationality prev;
             profile_picture_url := profile_picture_url prev;
             is_profile_public := is_profile_public prev;
             group := group prev;
             banned_until := None; ban_reason := None;
             is_private := is_private prev; message := message prev;
             created_at := created_at prev |} /\
   forall clock,
     JS.truthy (isUserBanned host clock (spread_ban prev None None)) = false).
Proof.
  split.
  - unfold handleUnbanUser.
    destruct (selectedUser s) as [selected |].
    + destruct (Z.eqb_spec (id selected) 0) as [Hid | Hid]; cbn.
      * split; [intros H; now contradiction H |].
        intros (sel & [= <-] & Hne). contradiction.
      * split; [intros _; now exists selected | discriminate].
    + cbn. split; [intros H; now contradiction H | intros (sel & [=] & _)].
  - intros Hsent Hprev.
    destruct (requests_of (handleUnbanUser s)) as [| rq rest] eqn:Hrq;
      [contradiction |].
    assert (rest = []) as ->.
    { unfold handleUnbanUser in Hrq.
      destruct (selectedUser s) as [selected |]; [| discriminate].
      destruct (id selected =? 0); [discriminate |]. now injection Hrq. }
    destruct (handleUnbanUser_sent _ _ Hrq) as (selected & _ & _ & _ & Hresume).
    rewrite Hresume. cbn. rewrite Hprev. split; reflexivity.
Qed.

(** X19. A ban and then an unban, both successful, leave the selected
    record with [banned_until] and [ban_reason] null and every other
    field as before the ban, whatever ban the record had; a record that
    had no ban is exactly restored. *)
Theorem ban_then_unban (permanent : bool) (banning unbanning : Page)
    (rq1 : Request) (rq2 : ModalRequest) (now1 now2 : Z) (current : Page)
    (prev : UserProfileData) :
  requests_of (handleBanUser permanent banning) = [rq1] ->
  requests_of (handleUnbanUser unbanning) = [rq2] ->
  selectedUser current = Some prev ->
  selectedUser
    (fst (resume (handleUnbanUser unbanning) now2 (Resolved tt)
            (fst (resume (handleBanUser permanent banning) now1 (Resolved tt)
                    current))))
  = Some {| id := id prev; username := username prev; name := name prev;
            email := email prev; bio := bio prev;
            nationality := nationality prev;
            profile_picture_url := profile_picture_url prev;
            is_profile_public := is_profile_public prev;
            group := group prev;
            banned_until := None; ban_reason := None;
            is_private := is_private prev; message := message prev;
            created_at := created_at prev |} /\
  (banned_until prev = None -> ban_reason prev = None ->
   selectedUser
     (fst (resume (handleUnbanUser unbanning) now2 (Resolved tt)
             (fst (resume (handleBanUser permanent banning) now1
                     (Resolved tt) current))))
   = Some prev).
Proof.
  intros Hban Hunban Hprev.
  destruct (handleBanUser_sent _ _ _ Hban)
    as (sel1 & c & rest & _ & _ & _ & _ & _ & Hresume1).
  destruct (handleUnbanUser_sent _ _ Hunban) as (sel2 & _ & _ & _ & Hresume2).
  rewrite Hresume2, Hresume1. cbn. rewrite Hprev. split; [reflexivity |].
  destruct prev; cbn. intros -> ->. reflexivity.
Qed.

(** X20. A group change is sent exactly when a user with a non-zero
    id is selected and a group is chosen, and it sends the group chosen,
    whether or not it is a known group or differs from the present one.
    Otherwise nothing is sent and the message asking for a group is
    shown, also when no user is selected. *)
Theorem handleUpdateGroup_check (s : Page) :
  (no_selected_id s = true \/ newGroup s = "" ->
   handleUpdateGroup s =
   Done (setAdminActionMessage
           (Some {| type := error; text := "Please select a new group." |})
           s)) /\
  (forall selected,
     selectedUser s = Some selected -> id selected <> 0 ->
     newGroup s <> "" ->
     requests_of (handleUpdateGroup s)
     = [PUT_group (id selected) (newGroup s)]).
Proof.
  unfold handleUpdateGroup, no_selected_id. split.
  - intros [Hnone | Hgroup].
    + now rewrite Hnone.
    + rewrite Hgroup. now rewrite orb_true_r.
  - intros selected Hsel Hid Hgroup. rewrite Hsel.
    destruct (Z.eqb_spec (id selected) 0); [contradiction |].
    destruct (newGroup s); [contradiction | reflexivity].
Qed.

(** X21. When a group change succeeds, the record selected at that
    moment gets the group that was chosen when the action started and
    keeps every other field, its ban fields included, so that its ban
    check is unchanged. *)
Theorem handleUpdateGroup_success (host : string -> Date.t) (s : Page)
    (rq : ModalRequest) (now : Z) (current : Page) (prev : UserProfileData) :
  requests_of (handleUpdateGroup s) = [rq] ->
  selectedUser current = Some prev ->
  selectedUser (fst (resume (handleUpdateGroup s) now (Resolved tt) current))
  = Some {| id := id prev; username := username prev; name := name prev;
            email := email prev; bio := bio prev;
            nationality := nationality prev;
            profile_picture_url := profile_picture_url prev;
            is_profile_public := is_profile_public prev;
            group := newGroup s;
            banned_until := banned_until prev; ban_reason := ban_reason prev;
            is_private := is_private prev; message := message prev;
            created_at := created_at prev |} /\
  forall clock,
    isUserBanned host clock (spread_group prev (newGroup s))
    = isUserBanned host clock prev.
Proof.
  intros Hsent Hprev.
  destruct (handleUpdateGroup_sent _ _ Hsent)
    as (selected & c & rest & _ & _ & _ & _ & Hresume).
  rewrite Hresume. cbn. rewrite Hprev. split; reflexivity.
Qed.

(** X22. When the request of a ban, an unban or a group change is
    rejected, the selected record and the list are as they are at that
    moment, the message shown is the server's, or the fixed text of the
    action when the server's is missing or empty, the action is no
    longer loading and nothing is thrown. *)
Theorem modal_action_rejected (permanent : bool) (s : Page) (now : Z)
    (err : AxiosError) (current : Page) :
  (requests_of (handleBanUser permanent s) <> [] ->
   resume (handleBanUser permanent s) now (Rejected err) current
   = (setAdminActionLoading false
        (setAdminActionMessage
           (Some {| type := error;
                    text :=
                      JS.or_string (Async.message err)
                        "Failed to ban user. Check privileges or user ID." |})
           current), Fulfilled)) /\
  (requests_of (handleUnbanUser s) <> [] ->
   resume (handleUnbanUser s) now (Rejected err) current
   = (setAdminActionLoading false
        (setAdminActionMessage
           (Some {| type := error;
                    text :=
                      JS.or_string (Async.message err)
                        "Failed to unban user. Check privileges or user ID." |})
           current), Fulfilled)) /\
  (requests_of (handleUpdateGroup s) <> [] ->
   resume (handleUpdateGroup s) now (Rejected err) current
   = (setAdminActionLoading false
        (setAdminActionMessage
           (Some {| type := error;
                    text :=
                      JS.or_string (Async.message err)
                        "Failed to update group. Check privileges or user ID."
                 |})
           current), Fulfilled)).
Proof.
  split; [| split]; intros Hsent.
  - destruct (handleBanUser permanent s) as [done | s1 rq k] eqn:Htask;
      [contradiction |].
    assert (Hrq : requests_of (handleBanUser permanent s) = [rq])
      by now rewrite Htask.
    destruct (handleBanUser_sent _ _ _ Hrq)
      as (selected & c & rest & _ & _ & _ & _ & _ & Hresume).
    rewrite <- Htask. now rewrite Hresume.
  - destruct (handleUnbanUser s) as [done | s1 rq k] eqn:Htask;
      [contradiction |].
    assert (Hrq : requests_of (handleUnbanUser s) = [rq])
      by now rewrite Htask.
    destruct (handleUnbanUser_sent _ _ Hrq) as (selected & _ & _ & _ & Hresume).
    rewrite <- Htask. now rewrite Hresume.
  - destruct (handleUpdateGroup s) as [done | s1 rq k] eqn:Htask;
      [contradiction |].
    assert (Hrq : requests_of (handleUpdateGroup s) = [rq])
      by now rewrite Htask.
    destruct (handleUpdateGroup_sent _ _ Hrq)
      as (selected & c & rest & _ & _ & _ & _ & Hresume).
    rewrite <- Htask. now rewrite Hresume.
Qed.

(** X23. Closing the modal deselects the user, empties the three
    form fields and the message, goes back to the first tab, keeps the
    list, and refetches the page shown with the current search text
    together with the statistics. A ban that succeeds after the modal
    was closed selects nothing again, but its success message is set. *)
Theorem closeModal_then_late_ban (permanent : bool) (s : Page)
    (rq : Request) (now : Z) (closing : Page) (c : StatsCard) :
  requests_of (handleBanUser permanent s) = [rq] ->
  requests_of (fst (closeModal closing c))
  = [GET_users (current_page (pagination closing)) (searchQuery closing)] /\
  requests_of (snd (closeModal closing c)) = [GET_admin_stats] /\
  state_of (fst (closeModal closing c))
  = {| users := users closing; pagination := pagination closing;
       listLoading := true; listError := None;
       searchQuery := searchQuery closing;
       selectedUser := None; modalOpen := false; modalActiveTab := info;
       banReason := ""; bannedUntil := ""; newGroup := "";
       adminActionLoading := adminActionLoading closing;
       adminActionMessage := None |} /\
  selectedUser
    (fst (resume (handleBanUser permanent s) now (Resolved tt)
            (state_of (fst (closeModal closing c))))) = None /\
  exists selected,
    selectedUser s = Some selected /\
    adminActionMessage
      (fst (resume (handleBanUser permanent s) now (Resolved tt)
              (state_of (fst (closeModal closing c)))))
    = Some {| type := success;
              text := "User " +:+ username selected
                      +:+ " banned successfully!" |}.
Proof.
  intros Hsent.
  destruct (handleBanUser_sent _ _ _ Hsent)
    as (selected & ch & rest & Hsel & _ & _ & _ & _ & Hresume).
  repeat split; try (rewrite Hresume; reflexivity).
  exists selected. split; [exact Hsel |]. rewrite Hresume. reflexivity.
Qed.

End Modal_facts.

Section Email_facts.
Import AdminPanelPage.

Lemma filter_all {A : Type} (P : A -> Prop) `{forall x, Decision (P x)}
    (l : list A) :
  (forall x, x ∈ l -> P x) -> filter P l = l.
Proof.
  induction l as [| a l IH]; intros Hall; [reflexivity |].
  rewrite filter_cons_True by (apply Hall; left).
  f_equal. apply IH. intros x Hx. apply Hall. now right.
Qed.

Lemma includes_true {A : Type} `{EqDecision A} (x : A) (xs : list A) :
  includes x xs = true <-> x ∈ xs.
Proof. unfold includes. apply bool_decide_eq_true. Qed.

(** What a checkbox shows after a click, for any list of values. *)
Lemma toggled_includes {A : Type} `{EqDecision A} (x y : A) (isChecked : bool)
    (prev : list A) :
  includes y
    (if isChecked then prev ++ [x] else filter (fun z => z <> x) prev)
  = if decide (y = x) then isChecked else includes y prev.
Proof.
  apply eq_true_iff_eq. rewrite includes_true.
  destruct isChecked.
  - rewrite elem_of_app, list_elem_of_singleton.
    destruct (decide (y = x)) as [-> | Hne].
    + split; [reflexivity | intros _; now right].
    + rewrite includes_true. split; [intros [? | ?]; congruence | now left].
  - rewrite list_elem_of_filter.
    destruct (decide (y = x)) as [-> | Hne].
    + split; [intros [Hne _]; congruence | discriminate].
    + rewrite includes_true. split; [intros [_ ?]; assumption | now split].
Qed.

Lemma toString_safe (beyond : Z -> string) (ids : list Z) :
  (forall i, i ∈ ids -> Z.abs i <= MAX_SAFE_INTEGER) ->
  map (toString beyond) ids = map decimal ids.
Proof.
  induction ids as [| i ids IH]; intros Hsafe; [reflexivity |].
  cbn [map]. rewrite IH by (intros k Hk; apply Hsafe; now right).
  f_equal. unfold toString.
  destruct (Z.leb_spec (Z.abs i) MAX_SAFE_INTEGER) as [_ | Hbig];
    [reflexivity |].
  pose proof (Hsafe i ltac:(left)). lia.
Qed.

(** X24. The handler of the e-mail form sends nothing exactly when
    the recipients are specific users and none is selected, or groups
    and none is selected; it then shows an error, ends loading and keeps
    the fields. Otherwise it posts the subject and the message as they
    are, which it does not check itself, with the group names only for
    groups and, only for specific users, the selected ids in the order
    of selection, each as [toString()] writes it: in decimal digits as
    long as the ids are safe integers. *)
Theorem handleEmailSend_check (beyond : Z -> string) (e : EmailTab) :
  (snd (handleEmailSend beyond e) = None <->
   (emailRecipientsType e = to_specific_users /\
    selectedUserIdsForEmail e = []) \/
   (emailRecipientsType e = to_group /\ emailGroupNames e = [])) /\
  (snd (handleEmailSend beyond e) = None ->
   exists text,
     fst (handleEmailSend beyond e)
     = setEmailSendingLoading false
         (setEmailSendingMessage (Some {| type := error; text := text |}) e)) /\
  (forall sent,
     snd (handleEmailSend beyond e) = Some sent ->
     fst (handleEmailSend beyond e)
     = setEmailSendingMessage None (setEmailSendingLoading true e) /\
     sent
     = {| recipients_type := emailRecipientsType e;
          group_name :=
            match emailRecipientsType e with
            | to_group => Some (emailGroupNames e)
            | _ => None
            end;
          user_identifiers :=
            match emailRecipientsType e with
            | to_specific_users =>
                Some (map (toString beyond) (selectedUserIdsForEmail e))
            | _ => None
            end;
          subject := emailSubject e;
          message_body := emailMessage e |} /\
     ((forall i,
         i ∈ selectedUserIdsForEmail e -> Z.abs i <= MAX_SAFE_INTEGER) ->
      user_identifiers sent
      = match emailRecipientsType e with
        | to_specific_users =>
            Some (map decimal (selectedUserIdsForEmail e))
        | _ => None
        end)).
Proof.
  unfold handleEmailSend.
  destruct (emailRecipientsType e) eqn:Hkind; cbn.
  - split; [| split].
    + split; [discriminate | intros [[[=] _] | [[=] _]]].
    + discriminate.
    + intros sent [= <-]. repeat split.
  - destruct (emailGroupNames e) as [| g groups] eqn:Hgroups; cbn;
      (split; [| split]).
    + split; [intros _; right; now split | reflexivity].
    + intros _. eexists. reflexivity.
    + discriminate.
    + split; [discriminate | intros [[[=] _] | [_ [=]]]].
    + discriminate.
    + intros sent [= <-]. repeat split.
  - destruct (selectedUserIdsForEmail e) as [| i ids] eqn:Hids; cbn;
      (split; [| split]).
    + split; [intros _; left; now split | reflexivity].
    + intros _. eexists. reflexivity.
    + discriminate.
    + split; [discriminate | intros [[_ [=]] | [[=] _]]].
    + discriminate.
    + intros sent [= <-]. split; [reflexivity |]. split; [reflexivity |].
      intros Hsafe. cbn. f_equal.
      apply (toString_safe beyond (i :: ids) Hsafe).
Qed.


(** X26. After a click on the checkbox of a user or of a group, the
    box shows what was clicked, checked or not, even when the value was
    in the list several times, and every other box shows what it
    showed. *)
Theorem selection_shows_click (e : EmailTab) (isChecked : bool)
    (userId otherId : Z) (groupName otherName : string) :
  includes otherId
    (selectedUserIdsForEmail
       (handleUserSelectionForEmail userId isChecked e))
  = (if decide (otherId = userId) then isChecked
     else includes otherId (selectedUserIdsForEmail e)) /\
  includes otherName
    (emailGroupNames (handleGroupSelectionForEmail groupName isChecked e))
  = (if decide (otherName = groupName) then isChecked
     else includes otherName (emailGroupNames e)).
Proof. split; apply toggled_includes. Qed.

(** X27. Checking a user or a group that is not selected and then
    unchecking it gives back the form as it was. Checking appends
    without looking: a value checked twice is in the list twice. *)
Theorem selection_round_trip (e : EmailTab) (userId : Z)
    (groupName : string) :
  (userId ∉ selectedUserIdsForEmail e ->
   handleUserSelectionForEmail userId false
     (handleUserSelectionForEmail userId true e) = e) /\
  (groupName ∉ emailGroupNames e ->
   handleGroupSelectionForEmail groupName false
     (handleGroupSelectionForEmail groupName true e) = e) /\
  selectedUserIdsForEmail
    (handleUserSelectionForEmail userId true
       (handleUserSelectionForEmail userId true e))
  = selectedUserIdsForEmail e ++ [userId; userId].
Proof.
  split; [| split].
  - intros Hnew. destruct e as [kind groups subj msg loading shown ids].
    unfold handleUserSelectionForEmail, setSelectedUserIdsForEmail. cbn in *.
    f_equal. rewrite filter_app, filter_singleton_False by tauto.
    rewrite app_nil_r. apply filter_all. intros x Hx ->. contradiction.
  - intros Hnew. destruct e as [kind groups subj msg loading shown ids].
    unfold handleGroupSelectionForEmail, setEmailGroupNames. cbn in *.
    f_equal. rewrite filter_app, filter_singleton_False by tauto.
    rewrite app_nil_r. apply filter_all. intros x Hx ->. contradiction.
  - cbn. now rewrite <- app_assoc.
Qed.

(** X28. Changing the kind of recipients empties both selections:
    right after a change, the form posts only if the new kind is all
    users. *)
Theorem recipients_change_requires_selection (beyond : Z -> string)
    (v : RecipientsType) (e : EmailTab) :
  selectedUserIdsForEmail (handleRecipientsTypeChange v e) = [] /\
  emailGroupNames (handleRecipientsTypeChange v e) = [] /\
  (snd (handleEmailSend beyond (handleRecipientsTypeChange v e)) <> None <->
   v = to_all).
Proof.
  split; [reflexivity |]. split; [reflexivity |].
  destruct v; cbn; split; try discriminate; try reflexivity;
    try (intros H; now contradiction H).
Qed.

End Email_facts.

Lemma selection_round_trip_witness :
  AdminPanelPage.handleUserSelectionForEmail 7 false
    (AdminPanelPage.handleUserSelectionForEmail 7 true
       AdminPanelPage.initialEmailTab)
  = AdminPanelPage.initialEmailTab.
Proof.
  destruct (selection_round_trip AdminPanelPage.initialEmailTab 7 "Admin")
    as (Husers & _).
  apply Husers. cbn. apply not_elem_of_nil.
Defined.

Lemma ban_then_unban_witness :
  AdminPanelPage.selectedUser
    (fst (Async.resume
            (AdminPanelPage.handleUnbanUser
               (AdminPanelPage.moderating AdminPanelPage.johndoe "" ""))
            1750000000001 (Async.Resolved tt)
            (fst (Async.resume
                    (AdminPanelPage.handleBanUser false
                       (AdminPanelPage.moderating AdminPanelPage.johndoe
                          "spam" "2030-01-01T00:00"))
                    1750000000000 (Async.Resolved tt)
                    (AdminPanelPage.moderating
                       (AdminPanelPage.spread_ban AdminPanelPage.johndoe
                          (Some "2026-01-01T00:00:00Z") (Some "flood"))
                       "spam" "2030-01-01T00:00")))))
  = Some AdminPanelPage.johndoe.
Proof.
  pose proof (ban_then_unban false
                (AdminPanelPage.moderating AdminPanelPage.johndoe
                   "spam" "2030-01-01T00:00")
                (AdminPanelPage.moderating AdminPanelPage.johndoe "" "")
                (AdminPanelPage.POST_ban 1
                   {| AdminPanelPage.data_banned_until :=
                        Some "2030-01-01T00:00";
                      AdminPanelPage.data_ban_reason := "spam" |})
                (AdminPanelPage.POST_unban 1)
                1750000000000 1750000000001
                (AdminPanelPage.moderating
                   (AdminPanelPage.spread_ban AdminPanelPage.johndoe
                      (Some "2026-01-01T00:00:00Z") (Some "flood"))
                   "spam" "2030-01-01T00:00")
                (AdminPanelPage.spread_ban AdminPanelPage.johndoe
                   (Some "2026-01-01T00:00:00Z") (Some "flood"))) as Hround.
  destruct (Hround eq_refl eq_refl eq_refl) as (Hselected & _).
  rewrite Hselected. reflexivity.
Defined.

Lemma handleUpdateGroup_success_witness :
  AdminPanelPage.selectedUser
    (fst (Async.resume
            (AdminPanelPage.handleUpdateGroup
               (AdminPanelPage.setNewGroup "Support"
                  (AdminPanelPage.moderating AdminPanelPage.johndoe "" "")))
            1750000000000 (Async.Resolved tt)
            (AdminPanelPage.moderating AdminPanelPage.johndoe "" "")))
  = Some (AdminPanelPage.spread_group AdminPanelPage.johndoe "Support").
Proof.
  pose proof (handleUpdateGroup_success (fun _ => None)
                (AdminPanelPage.setNewGroup "Support"
                   (AdminPanelPage.moderating AdminPanelPage.johndoe "" ""))
                (AdminPanelPage.PUT_group 1 "Support")
                1750000000000
                (AdminPanelPage.moderating AdminPanelPage.johndoe "" "")
                AdminPanelPage.johndoe) as Hgroup.
  destruct (Hgroup eq_refl eq_refl) as (Hselected & _).
  exact Hselected.
Defined.

Lemma closeModal_then_late_ban_witness :
  AdminPanelPage.selectedUser
    (fst (Async.resume
            (AdminPanelPage.handleBanUser true
               (AdminPanelPage.moderating AdminPanelPage.johndoe "spam" ""))
            1750000000000 (Async.Resolved tt)
            (Async.state_of
               (fst (AdminPanelPage.closeModal
                       (AdminPanelPage.moderating AdminPanelPage.johndoe
                          "spam" "")
                       {| AdminPanelPage.adminStats :=
                            {| AdminPanelPage.total_users := 1;
                               AdminPanelPage.active_today := 1;
                               AdminPanelPage.active_bans := 0 |};
                          AdminPanelPage.statsLoading := false;
                          AdminPanelPage.statsError := None |})))))
  = None.
Proof.
  pose proof (closeModal_then_late_ban true
                (AdminPanelPage.moderating AdminPanelPage.johndoe "spam" "")
                (AdminPanelPage.POST_ban 1
                   {| AdminPanelPage.data_banned_until := None;
                      AdminPanelPage.data_ban_reason := "spam" |})
                1750000000000
                (AdminPanelPage.moderating AdminPanelPage.johndoe "spam" "")
                {| AdminPanelPage.adminStats :=
                     {| AdminPanelPage.total_users := 1;
                        AdminPanelPage.active_today := 1;
                        AdminPanelPage.active_bans := 0 |};
                   AdminPanelPage.statsLoading := false;
                   AdminPanelPage.statsError := None |}) as Hclose.
  destruct (Hclose eq_refl) as (_ & _ & _ & Hselected & _).
  exact Hselected.
Defined.
